(** * autobase-discovery-cli: the client and server command line programs

    A shallow embedding of the two binaries of the repository:
    - [client-bin.js]: the commands [list], [delete] and [register];
    - the server binary: the command [run].

    Both programs are glue between collaborators that live in other
    packages (Hyperswarm, Corestore, HyperDHT, the autobase-discovery
    clients and service, the RPC router and its middleware, the argument
    parser).  A command is embedded as the sequence of calls it makes on
    these collaborators and of lines it prints, in program order, together
    with the way it ends.  What a collaborator answers (a promise resolves,
    rejects or stays pending; a key decodes or not) is read from an
    environment record, one per command. *)

From Stdlib Require Import String Ascii List ZArith Lia Bool Arith.
From Stdlib Require Import DecimalString DecimalNat DecimalZ.
Import ListNotations.

Local Open Scope string_scope.
Local Open Scope list_scope.

(* ===================================================================== *)
(** * JavaScript values used by the commands *)
(* ===================================================================== *)

Module Js.

(** A [Buffer]: the decoded form of a key or of a seed. *)
Definition Buffer := list Byte.byte.

Definition buffer_eqb (a b : Buffer) : bool :=
  if list_eq_dec Byte.byte_eq_dec a b then true else false.

(** An [Error] object; only its [message] is read by the commands. *)
Record JsError := mkError { message : string }.

(** What [parseInt] returns: [NaN] or an integer. *)
Inductive JsNum :=
| NaN
| Num (z : Z).

(** A value that is either a string or a number (the type of
    [flags.limit || 10]). *)
Inductive JsVal :=
| VStr (s : string)
| VNum (n : JsNum).

(** A flag that takes a value is [undefined] ([None]) or the string the
    argument parser stored for it. *)
Definition Flag := option string.

(** Truthiness of a string: every string but the empty one. *)
Definition truthy (s : string) : bool :=
  match s with
  | EmptyString => false
  | String _ _ => true
  end.

(** Truthiness of a flag: [undefined] is falsy. *)
Definition flagTruthy (f : Flag) : bool :=
  match f with
  | None => false
  | Some s => truthy s
  end.

(** [f || d] for a string default. *)
Definition orString (f : Flag) (d : string) : string :=
  match f with
  | Some s => if truthy s then s else d
  | None => d
  end.

(** [f || n] for a numeric default. *)
Definition orNumber (f : Flag) (n : Z) : JsVal :=
  match f with
  | Some s => if truthy s then VStr s else VNum (Num n)
  | None => VNum (Num n)
  end.

(** [String(v)] for a value that may be [undefined]. *)
Definition toStringOpt (v : option string) : string :=
  match v with
  | Some s => s
  | None => "undefined"
  end.

(** A number inside a template literal (an integer below 10^21, which
    JavaScript prints with all its digits). *)
Definition showNat (n : nat) : string :=
  NilEmpty.string_of_uint (Nat.to_uint n).

(** The same for a number that may be [NaN]; the integers meant are those
    of absolute value below 10^21, above which JavaScript prints an
    exponent. *)
Definition showNum (n : JsNum) : string :=
  match n with
  | NaN => "NaN"
  | Num z => NilZero.string_of_int (Z.to_int z)
  end.

(** A string is held as the bytes of its UTF-8 encoding.  [isAscii s]:
    every character of [s] is one byte below 128, so that bytes,
    characters and UTF-16 code units coincide. *)
Fixpoint isAscii (s : string) : bool :=
  match s with
  | EmptyString => true
  | String a rest => (nat_of_ascii a <? 128)%nat && isAscii rest
  end.

(** The number of UTF-16 code units of a string, read off its UTF-8
    bytes: a character of one, two or three bytes is one unit, a character
    of four bytes is two (a surrogate pair); [skip] counts the bytes left
    of the character begun. *)
Fixpoint utf16Units (skip : nat) (s : string) : nat :=
  match s with
  | EmptyString => 0
  | String a rest =>
      match skip with
      | S skip' => utf16Units skip' rest
      | O =>
          let b := nat_of_ascii a in
          if (b <? 192)%nat then S (utf16Units 0 rest)
          else if (b <? 224)%nat then S (utf16Units 1 rest)
          else if (b <? 240)%nat then S (utf16Units 2 rest)
          else S (S (utf16Units 3 rest))
      end
  end.

(** [s.length]: the number of UTF-16 code units of [s]. *)
Definition jsLength (s : string) : nat := utf16Units 0 s.

(** [s.slice(0, n)] for an ASCII string [s]: its first [n] characters.
    (On other strings [slice] cuts UTF-16 code units, which this does not;
    what is proved of it carries the hypothesis that [s] is ASCII.) *)
Definition slice0 (n : nat) (s : string) : string := substring 0 n s.

(** [s.split(c)]: the pieces of [s] between the occurrences of [c]. *)
Fixpoint splitAux (c : ascii) (acc : string) (s : string) : list string :=
  match s with
  | EmptyString => [acc]
  | String a rest =>
      if Ascii.eqb a c then acc :: splitAux c "" rest
      else splitAux c (acc ++ String a "") rest
  end.

Definition split (c : ascii) (s : string) : list string := splitAux c "" s.

(** How a promise settles. *)
Inductive Settle (A : Type) :=
| Resolves (a : A)
| Rejects (e : JsError)
| Pending.
Arguments Resolves {A} a.
Arguments Rejects {A} e.
Arguments Pending {A}.

(** A key pair; the commands read its public key only. *)
Record KeyPair := mkKeyPair { publicKey : Buffer }.

End Js.
Import Js.

(* ===================================================================== *)
(** * What a command does: the calls it makes and the lines it prints *)
(* ===================================================================== *)

Module Effects.

(** Options of [swarm.join]. *)
Record JoinOpts := mkJoinOpts { joinClient : bool; joinServer : bool }.

(** [{ port, host }], an entry of the [bootstrap] array. *)
Record BootstrapNode := mkBootstrapNode { port : JsNum; host : string }.

(** Options of [new Hyperswarm(...)] in the server. *)
Record SwarmOpts := mkSwarmOpts {
  keyPair : KeyPair;
  bootstrap : option (list BootstrapNode)
}.

(** Options of [defaultMiddleware(...)]. *)
Record RateLimitOpts := mkRateLimit { rlCapacity : JsNum; intervalMs : JsNum }.
Record ConcurrentLimitOpts := mkConcurrentLimit { clCapacity : JsNum }.
Record MiddlewareOpts := mkMiddleware {
  rateLimit : RateLimitOpts;
  concurrentLimit : ConcurrentLimitOpts
}.

(** Options of [new HyperInstrumentation(...)]. *)
Record InstrumentationOpts := mkInstrumentation {
  scraperPublicKey : Buffer;
  prometheusAlias : string;
  scraperSecret : Buffer;
  prometheusServiceName : string;
  version : string
}.

Inductive Event :=
(* console *)
| ConsoleLog (s : string)
| ConsoleInfo (s : string)
| ConsoleError (s : string)
| ConsoleDebug (s : string)
(* the pino logger of the server *)
| NewLogger (name : string)
| LoggerInfo (s : string)
| LoggerWarn (s : string)
(* objects built *)
| NewHyperswarm (opts : option SwarmOpts)
| NewCorestore (storage : string)
| NewHyperDHT
| NewLookupClient (dbKey : Buffer) (namespace : string)
| NewDeleteClient (rpcServerKey accessSeed : Buffer)
| NewRegisterClient (rpcServerKey accessSeed : Buffer)
| NewInstrumentation (opts : InstrumentationOpts)
| NewRouter
| NewAutodiscovery (namespace : string) (rpcAllowedPublicKey : Buffer)
(* handlers registered *)
| SwarmOnConnection
| ConnOnClose
| ServiceOnRpcSession
| GoodbyeRegister
| GoodbyeExit
(* calls on the store, the swarm and the DHT *)
| StoreReady
| StoreCreateKeyPair (name : string)
| StoreReplicate
| StoreClose
| SwarmJoin (topic : Buffer) (opts : option JoinOpts)
| SwarmDestroy
| DhtDestroy
(* calls on the clients *)
| ClientReady
| EnsureDbLoaded
| ClientList (service : string) (limit : JsVal)
| ClientClose
| DeleteService (publicKey : Buffer)
| PutService (publicKey : Buffer) (serviceName : string)
(* calls on the router, the instrumentation and the service *)
| RouterUse (opts : MiddlewareOpts)
| RouterRegisterMetrics
| RouterClose
| InstrumentationRegisterLogger
| InstrumentationReady
| InstrumentationClose
| ServiceReady
| ServiceClose.

Definition Trace := list Event.

(** How the command function ends. *)
Inductive Outcome (A : Type) :=
| Done (a : A)            (* it returns *)
| Thrown (e : JsError)    (* it throws, or the promise it awaits rejects *)
| Exited (code : Z)       (* [process.exit(code)] *)
| Hang.                   (* it awaits a promise that never settles *)
Arguments Done {A} a.
Arguments Thrown {A} e.
Arguments Exited {A} code.
Arguments Hang {A}.

End Effects.
Import Effects.

Module Proc.

(** A computation: the trace it leaves and the way it ends. *)
Definition Run (A : Type) : Type := (Trace * Outcome A)%type.

Definition ret {A} (a : A) : Run A := ([], Done a).

Definition bind {A B} (m : Run A) (k : A -> Run B) : Run B :=
  let (t, o) := m in
  match o with
  | Done a => let (t', o') := k a in (t ++ t', o')
  | Thrown e => (t, Thrown e)
  | Exited c => (t, Exited c)
  | Hang => (t, Hang)
  end.

Definition emit (e : Event) : Run unit := ([e], Done tt).

Definition throw {A} (e : JsError) : Run A := ([], Thrown e).

(** [process.exit(code)]: nothing after it runs. *)
Definition exit {A} (code : Z) : Run A := ([], Exited code).

(** The settlement of a promise, seen by [await]. *)
Definition settle {A} (s : Settle A) : Run A :=
  match s with
  | Resolves a => ([], Done a)
  | Rejects e => ([], Thrown e)
  | Pending => ([], Hang)
  end.

(** [await obj.call(...)]: the call is made, then its promise is awaited. *)
Definition await {A} (call : Event) (s : Settle A) : Run A :=
  bind (emit call) (fun _ => settle s).

(** A value that a library function returns or an error it throws. *)
Definition lift {A} (r : JsError + A) : Run A :=
  match r with
  | inl e => throw e
  | inr a => ret a
  end.

(** [try { m } catch (e) { h e }]. *)
Definition tryCatch {A} (m : Run A) (h : JsError -> Run A) : Run A :=
  let (t, o) := m in
  match o with
  | Thrown e => let (t', o') := h e in (t ++ t', o')
  | _ => (t, o)
  end.

Definition when (b : bool) (m : Run unit) : Run unit :=
  if b then m else ret tt.

(** An async iterable: the items it yields, then the way it ends
    (it finishes, throws, or never yields again). *)
Record AsyncIter (A : Type) := mkIter {
  items : list A;
  finish : Settle unit
}.
Arguments mkIter {A} items finish.
Arguments items {A} a.
Arguments finish {A} a.

(** [for await (const x of it) body], with the variables the body
    assigns threaded as [s]. *)
Fixpoint forAwait {A S} (xs : list A) (fin : Settle unit)
         (body : A -> S -> Run S) (s : S) : Run S :=
  match xs with
  | [] => bind (settle fin) (fun _ => ret s)
  | x :: xs' => bind (body x s) (forAwait xs' fin body)
  end.

Definition trace {A} (m : Run A) : Trace := fst m.
Definition outcome {A} (m : Run A) : Outcome A := snd m.

(** The handlers a command registers run between the steps of the command,
    whenever the swarm reports something.  [weave sched main cb] is the
    trace of the process when the command leaves [main], the handlers leave
    [cb], and [sched] says who moves next ([true]: the command); every
    interleaving of the two is [weave sched main cb] for some [sched]. *)
Fixpoint weave (sched : list bool) (main cb : Trace) : Trace :=
  match sched with
  | [] => main ++ cb
  | true :: sched' =>
      match main with
      | x :: main' => x :: weave sched' main' cb
      | [] => cb
      end
  | false :: sched' =>
      match cb with
      | y :: cb' => y :: weave sched' main cb'
      | [] => main
      end
  end.

(** The interleavings of two traces, as a relation. *)
Inductive Interleave : Trace -> Trace -> Trace -> Prop :=
| interleave_nil : Interleave [] [] []
| interleave_main x main cb whole :
    Interleave main cb whole -> Interleave (x :: main) cb (x :: whole)
| interleave_cb y main cb whole :
    Interleave main cb whole -> Interleave main (y :: cb) (y :: whole).

End Proc.
Import Proc.

Declare Scope run_scope.
Delimit Scope run_scope with run.
Notation "x <- m ;; k" := (bind m (fun x => k))
  (at level 61, m at next level, right associativity) : run_scope.
Notation "m ;; k" := (bind m (fun _ => k))
  (at level 61, right associativity) : run_scope.
Local Open Scope run_scope.

(* ===================================================================== *)
(** * client-bin.js *)
(* ===================================================================== *)

Module Client.

(** How the process of a client command ends once the command function
    has ended.  [list] closes what it opened before it returns, so nothing
    keeps the process alive and it ends with code 0; [process.exit] ends
    it with the code given; a pending await keeps it alive; what happens
    to a rejection that nothing catches is the runtime's affair. *)
Inductive ProcessEnd :=
| ExitCode (code : Z)
| StaysAlive
| UncaughtRejection (e : JsError).

Definition processEnd {A} (o : Outcome A) : ProcessEnd :=
  match o with
  | Done _ => ExitCode 0
  | Exited c => ExitCode c
  | Hang => StaysAlive
  | Thrown e => UncaughtRejection e
  end.

(** ** The [list] command *)

Record ListArgs := mkListArgs { dbKey : string; service : string }.

Record ListFlags := mkListFlags {
  storage : Flag;
  limit : Flag;
  debug : bool
}.

(** An entry yielded by [client.list]; the loop reads [publicKey]. *)
Record Entry := mkEntry { entryPublicKey : Buffer }.

(** The collaborators of [list]. *)
Record LookupEnv := mkLookupEnv {
  decode : option string -> JsError + Buffer;       (* IdEnc.decode *)
  normalize : Buffer -> string;                     (* IdEnc.normalize *)
  clientReady : Settle unit;                        (* client.ready() *)
  ensureDbLoaded : Settle unit;                     (* client.ensureDbLoaded() *)
  coreLength : nat;                                 (* client.db.db.core.length *)
  clientList : string -> JsVal -> Settle (AsyncIter Entry);
                                       (* client.list(service, { limit }) *)
  clientClose : Settle unit;
  swarmDestroy : Settle unit;
  storeClose : Settle unit
}.

(** What the swarm reports while the command runs. *)
Inductive SwarmEvent :=
| Connected (peerPublicKey : Buffer)
| Closed (peerPublicKey : Buffer).

(** The handler passed to [swarm.on('connection', ...)], run once per
    connection the swarm opens. *)
Definition lookupOnConnection (env : LookupEnv) (debug : bool)
           (peerPublicKey : Buffer) : Trace :=
  (if debug
   then [ConsoleDebug ("Opened connection to " ++ normalize env peerPublicKey);
         ConnOnClose]
   else [])
  ++ [StoreReplicate].

(** The handler it passes to [conn.on('close', ...)], in debug mode only. *)
Definition lookupOnClose (env : LookupEnv) (debug : bool)
           (peerPublicKey : Buffer) : Trace :=
  if debug
  then [ConsoleDebug ("Closed connection to " ++ normalize env peerPublicKey)]
  else [].

Definition lookupHandlers (env : LookupEnv) (debug : bool)
           (evs : list SwarmEvent) : Trace :=
  flat_map (fun ev => match ev with
                      | Connected k => lookupOnConnection env debug k
                      | Closed k => lookupOnClose env debug k
                      end) evs.

Definition noneFound : string := "None (did not find any instances)".

Definition lookup (env : LookupEnv) (args : ListArgs) (flags : ListFlags)
  : Run unit :=
  let storage := orString (storage flags) "autodiscovery-client" in
  let limit := orNumber (limit flags) 10 in
  dbKey <- lift (decode env (Some (dbKey args))) ;;
  let service := service args in
  emit (NewHyperswarm None) ;;
  emit (NewCorestore storage) ;;
  emit SwarmOnConnection ;;
  emit (NewLookupClient dbKey "autodiscovery-lookup") ;;
  await ClientReady (clientReady env) ;;
  emit (ConsoleLog "Loading database...") ;;
  tryCatch
    (await EnsureDbLoaded (ensureDbLoaded env))
    (fun e => emit (ConsoleError (message e)) ;; exit 1) ;;
  emit (ConsoleLog ("Autobase Discovery database version: "
                    ++ showNat (coreLength env))) ;;
  emit (ConsoleLog ("Available instances for service '" ++ service ++ "':")) ;;
  it <- await (ClientList service limit) (clientList env service limit) ;;
  foundOne <- forAwait (items it) (finish it)
                (fun entry _ =>
                   emit (ConsoleInfo
                           ("  - " ++ normalize env (entryPublicKey entry))) ;;
                   ret true)
                false ;;
  when (negb foundOne) (emit (ConsoleInfo noneFound)) ;;
  await ClientClose (clientClose env) ;;
  await SwarmDestroy (swarmDestroy env) ;;
  await StoreClose (storeClose env).

(** An execution of [list]: the command interleaved with its handlers. *)
Definition lookupExecution (env : LookupEnv) (args : ListArgs)
           (flags : ListFlags) (evs : list SwarmEvent) (sched : list bool)
  : Trace :=
  weave sched (trace (lookup env args flags))
        (lookupHandlers env (debug flags) evs).

(** ** The [delete] and [register] commands *)

Record DeleteArgs := mkDeleteArgs {
  delRpcKey : string;          (* args.rpcKey *)
  delAccessSeed : string;      (* args.accessSeed *)
  delPublicKey : string        (* args.publicKey *)
}.

Record RegisterArgs := mkRegisterArgs {
  regRpcKey : string;          (* args.rpcKey *)
  regAccessSeed : string;      (* args.accessSeed *)
  regServiceName : string;     (* args.serviceName *)
  regPublicKey : string        (* args.publicKey *)
}.

(** The collaborators of [delete] and [register]. *)
Record RpcEnv := mkRpcEnv {
  decodeKey : option string -> JsError + Buffer;   (* IdEnc.decode *)
  normalizeKey : Buffer -> string;                 (* IdEnc.normalize *)
  keyPairOf : Buffer -> KeyPair;     (* client.keyPair, derived from the seed *)
  ready : Settle unit;               (* client.ready() *)
  request : Settle unit;             (* client.deleteService / client.putService *)
  opened : bool;                     (* client.opened, read by the exit handler *)
  close : Settle unit;               (* client.close() *)
  dhtDestroy : Settle unit           (* dht.destroy() *)
}.

(** The handler both commands pass to [goodbye]; [done] is the variable
    of that name at the time the handler runs. *)
Definition goodbyeHandler (env : RpcEnv) (done : bool) : Run unit :=
  when (negb done) (emit (ConsoleInfo "Cancelling...")) ;;
  when (opened env) (await ClientClose (close env)) ;;
  await DhtDestroy (dhtDestroy env).

(** [goodbye.exit()]: the registered handler runs, then the process ends.
    How the library treats a handler that fails is not part of this
    program: here the failure is the outcome. *)
Definition goodbyeExit (env : RpcEnv) (done : bool) : Run unit :=
  emit GoodbyeExit ;;
  goodbyeHandler env done ;;
  exit 0.

Definition openingLine : string :=
  "Opening connection... (press ctrl-c to cancel)".

Definition deleteCmd (env : RpcEnv) (args : DeleteArgs) : Run unit :=
  rpcServerKey <- lift (decodeKey env (Some (delRpcKey args))) ;;
  accessSeed <- lift (decodeKey env (Some (delAccessSeed args))) ;;
  publicKey <- lift (decodeKey env (Some (delPublicKey args))) ;;
  emit NewHyperDHT ;;
  emit (NewDeleteClient rpcServerKey accessSeed) ;;
  emit GoodbyeRegister ;;
  emit (ConsoleInfo openingLine) ;;
  await ClientReady (ready env) ;;
  emit (ConsoleLog
          ("Sending delete request to RPC server "
           ++ normalizeKey env rpcServerKey
           ++ ", using public key "
           ++ normalizeKey env (Js.publicKey (keyPairOf env accessSeed))
           ++ "...")) ;;
  await (DeleteService publicKey) (request env) ;;
  emit (ConsoleLog ("Successfully requested to delete service "
                    ++ normalizeKey env publicKey)) ;;
  goodbyeExit env true.

Definition registerCmd (env : RpcEnv) (args : RegisterArgs) : Run unit :=
  rpcServerKey <- lift (decodeKey env (Some (regRpcKey args))) ;;
  accessSeed <- lift (decodeKey env (Some (regAccessSeed args))) ;;
  publicKey <- lift (decodeKey env (Some (regPublicKey args))) ;;
  let serviceName := regServiceName args in
  emit NewHyperDHT ;;
  emit (NewRegisterClient rpcServerKey accessSeed) ;;
  emit GoodbyeRegister ;;
  emit (ConsoleInfo openingLine) ;;
  await ClientReady (ready env) ;;
  emit (ConsoleInfo
          ("Sending register request to RPC server "
           ++ normalizeKey env rpcServerKey
           ++ ", using public key "
           ++ normalizeKey env (Js.publicKey (keyPairOf env accessSeed))
           ++ "...")) ;;
  await (PutService publicKey serviceName) (request env) ;;
  emit (ConsoleInfo ("Successfully requested to register service "
                     ++ normalizeKey env publicKey)) ;;
  goodbyeExit env true.

(** Modelled from the spec: the session a mutation client opens, which is
    code of the autobase-discovery package.  The client authenticates with
    the key pair derived from its seed; the server accepts the one public
    key it was started with; a key pair derived from another seed never
    authenticates and no error is produced, so the request stays pending.
    [answer] is what the server answers to an authenticated request. *)
Definition sessionRequest (allowedPublicKey : Buffer) (clientKey : KeyPair)
           (answer : Settle unit) : Settle unit :=
  if buffer_eqb (Js.publicKey clientKey) allowedPublicKey
  then answer
  else Pending.

End Client.

(* ===================================================================== *)
(** * The server binary *)
(* ===================================================================== *)

Module Server.

Record RunArgs := mkRunArgs { rpcAllowedPublicKey : string }.

Record RunFlags := mkRunFlags {
  storage : Flag;
  scraperPublicKey : Flag;
  scraperSecret : Flag;
  scraperAlias : Flag;
  bootstrap : Flag;
  rateLimitCapacity : Flag;
  rateLimitIntervalMs : Flag;
  concurrentLimitCapacity : Flag
}.

(** The collaborators of [run].  The fields from [baseDiscoveryKey] to
    [dbLength] are properties of the service, read once it is ready. *)
Record RunEnv := mkRunEnv {
  decode : option string -> JsError + Buffer;   (* IdEnc.decode *)
  normalize : Buffer -> string;                 (* IdEnc.normalize *)
  parseInt : string -> JsNum;                   (* parseInt *)
  pathResolve : string -> string;               (* path.resolve *)
  ownVersion : string;                          (* version in package.json *)
  storeReady : Settle unit;                     (* store.ready() *)
  createKeyPair : string -> Settle KeyPair;     (* store.createKeyPair(name) *)
  instrumentationReady : Settle unit;           (* instrumentation.ready() *)
  serviceReady : Settle unit;                   (* service.ready() *)
  baseDiscoveryKey : Buffer;                    (* service.base.discoveryKey *)
  dbDiscoveryKey : Buffer;                      (* service.dbDiscoveryKey *)
  baseKey : Buffer;                             (* service.base.key *)
  dbKey : Buffer;                               (* service.dbKey *)
  serverPublicKey : Buffer;                     (* service.serverPublicKey *)
  dbLength : nat;                               (* service.view.db.core.length *)
  instrumentationClose : Settle unit;
  swarmDestroy : Settle unit;
  serviceClose : Settle unit;
  routerClose : Settle unit
}.

(** [flag ? parseInt(flag) : d]. *)
Definition parseOr (env : RunEnv) (f : Flag) (d : Z) : JsNum :=
  if flagTruthy f then parseInt env (toStringOpt f) else Num d.

(** The node built from [flags.bootstrap]: [host] and [port] are the first
    two pieces of [flags.bootstrap.split(':')]; a missing piece is
    [undefined]. *)
Definition bootstrapNode (env : RunEnv) (f : string) : BootstrapNode :=
  let parts := split ":" f in
  let host := nth_error parts 0 in
  let port := nth_error parts 1 in
  {| Effects.port := parseInt env (toStringOpt port);
     Effects.host := toStringOpt host |}.

Definition bootstrapWarning (node : BootstrapNode) : string :=
  "Using non-standard bootstrap: " ++ Effects.host node ++ ":"
  ++ showNum (Effects.port node).

Definition aliasError : JsError :=
  mkError "The Prometheus alias must have length less than 100".

(** The alias handed to the instrumentation when none is given. *)
Definition defaultAlias (env : RunEnv) (swarmPublicKey : Buffer) : string :=
  slice0 99 ("autodiscovery-" ++ normalize env swarmPublicKey).

(** The block guarded by [if (flags.scraperPublicKey)]; it returns whether
    [instrumentation] is set. *)
Definition setUpInstrumentation (env : RunEnv) (flags : RunFlags)
           (swarmKeyPair : KeyPair) : Run bool :=
  if flagTruthy (scraperPublicKey flags) then
    emit (LoggerInfo "Setting up instrumentation") ;;
    scraperPublicKey <- lift (decode env (scraperPublicKey flags)) ;;
    scraperSecret <- lift (decode env (scraperSecret flags)) ;;
    let prometheusServiceName := "autodiscovery" in
    let prometheusAlias := scraperAlias flags in
    (if flagTruthy prometheusAlias
        && (99 <? jsLength (toStringOpt prometheusAlias))%nat
     then throw aliasError
     else ret tt) ;;
    let prometheusAlias :=
      if negb (flagTruthy prometheusAlias)
      then defaultAlias env (Js.publicKey swarmKeyPair)
      else toStringOpt prometheusAlias in
    emit (NewInstrumentation
            {| Effects.scraperPublicKey := scraperPublicKey;
               Effects.prometheusAlias := prometheusAlias;
               Effects.scraperSecret := scraperSecret;
               Effects.prometheusServiceName := prometheusServiceName;
               Effects.version := ownVersion env |}) ;;
    emit InstrumentationRegisterLogger ;;
    ret true
  else ret false.

(** What the swarm and the service report while the server runs. *)
Inductive ServerEvent :=
| Connected (peerPublicKey : Buffer)
| Closed (peerPublicKey : Buffer)
| RpcSession.

(** The handlers the command registers. *)
Definition runOnConnection (env : RunEnv) (peerPublicKey : Buffer) : Trace :=
  [LoggerInfo ("Opened connection to " ++ normalize env peerPublicKey);
   ConnOnClose].

Definition runOnClose (env : RunEnv) (peerPublicKey : Buffer) : Trace :=
  [LoggerInfo ("Closed connection to " ++ normalize env peerPublicKey)].

Definition onRpcSession : Trace := [LoggerInfo "Opened RPC session"].

Definition runHandlers (env : RunEnv) (evs : list ServerEvent) : Trace :=
  flat_map (fun ev => match ev with
                      | Connected k => runOnConnection env k
                      | Closed k => runOnClose env k
                      | RpcSession => onRpcSession
                      end) evs.

Definition goodbyeHandler (env : RunEnv) (instrumentation : bool) : Run unit :=
  emit (LoggerInfo "Shutting down autodiscovery service") ;;
  when instrumentation (await InstrumentationClose (instrumentationClose env)) ;;
  await SwarmDestroy (swarmDestroy env) ;;
  await ServiceClose (serviceClose env) ;;
  await RouterClose (routerClose env).

Definition hybrid : JoinOpts := {| joinClient := true; joinServer := true |}.

Definition runCmd (env : RunEnv) (args : RunArgs) (flags : RunFlags)
  : Run unit :=
  emit (NewLogger "autobase-discovery") ;;
  let storage := pathResolve env (orString (storage flags) "autodiscovery") in
  rpcAllowedPublicKey <- lift (decode env (Some (rpcAllowedPublicKey args))) ;;
  let bootstrap :=
    if flagTruthy (bootstrap flags)
    then Some [bootstrapNode env (toStringOpt (bootstrap flags))]
    else None in
  match bootstrap with
  | Some (node :: _) => emit (LoggerWarn (bootstrapWarning node))
  | _ => ret tt
  end ;;
  let rateLimitCapacity := parseOr env (rateLimitCapacity flags) 10 in
  let rateLimitIntervalMs := parseOr env (rateLimitIntervalMs flags) 100 in
  let concurrentLimitCapacity := parseOr env (concurrentLimitCapacity flags) 16 in
  emit (LoggerInfo ("Using storage: " ++ storage)) ;;
  emit (NewCorestore storage) ;;
  await StoreReady (storeReady env) ;;
  swarmKeyPair <- await (StoreCreateKeyPair "public-key")
                        (createKeyPair env "public-key") ;;
  emit (NewHyperswarm (Some {| keyPair := swarmKeyPair;
                               Effects.bootstrap := bootstrap |})) ;;
  emit SwarmOnConnection ;;
  instrumentation <- setUpInstrumentation env flags swarmKeyPair ;;
  emit NewRouter ;;
  emit (RouterUse
          {| rateLimit := {| rlCapacity := rateLimitCapacity;
                             intervalMs := rateLimitIntervalMs |};
             concurrentLimit := {| clCapacity := concurrentLimitCapacity |} |}) ;;
  when instrumentation (emit RouterRegisterMetrics) ;;
  emit (NewAutodiscovery "autodiscovery" rpcAllowedPublicKey) ;;
  emit ServiceOnRpcSession ;;
  emit GoodbyeRegister ;;
  when instrumentation (await InstrumentationReady (instrumentationReady env)) ;;
  emit (LoggerInfo "Starting autodiscovery service") ;;
  await ServiceReady (serviceReady env) ;;
  emit (SwarmJoin (baseDiscoveryKey env) None) ;;
  emit (SwarmJoin (dbDiscoveryKey env) (Some hybrid)) ;;
  emit (LoggerInfo ("DB version: " ++ showNat (dbLength env))) ;;
  emit (LoggerInfo ("Autobase key: " ++ normalize env (baseKey env))) ;;
  emit (LoggerInfo ("Name-service database key: "
                    ++ normalize env (dbKey env))) ;;
  emit (LoggerInfo ("RPC server public key: "
                    ++ normalize env (serverPublicKey env))) ;;
  emit (LoggerInfo ("Accepting RPC connections from public key "
                    ++ normalize env rpcAllowedPublicKey)).

(** An execution of [run]: the command interleaved with its handlers. *)
Definition runExecution (env : RunEnv) (args : RunArgs) (flags : RunFlags)
           (evs : list ServerEvent) (sched : list bool) : Trace :=
  weave sched (trace (runCmd env args flags)) (runHandlers env evs).

End Server.

(* ===================================================================== *)
(** * Observations on traces *)
(* ===================================================================== *)

Module Obs.

Definition isJoin (e : Event) : bool :=
  match e with SwarmJoin _ _ => true | _ => false end.

Definition isRouterUse (e : Event) : bool :=
  match e with RouterUse _ => true | _ => false end.

Definition isEnsure (e : Event) : bool :=
  match e with EnsureDbLoaded => true | _ => false end.

Definition isListCall (e : Event) : bool :=
  match e with ClientList _ _ => true | _ => false end.

(** [new DeleteClient(...)] or [new RegisterClient(...)]. *)
Definition isSession (e : Event) : bool :=
  match e with
  | NewDeleteClient _ _ | NewRegisterClient _ _ => true
  | _ => false
  end.

(** [client.deleteService(...)] or [client.putService(...)]. *)
Definition isRequest (e : Event) : bool :=
  match e with
  | DeleteService _ | PutService _ _ => true
  | _ => false
  end.

Definition isConsoleError (e : Event) : bool :=
  match e with ConsoleError _ => true | _ => false end.

Definition isConsoleInfo (e : Event) : bool :=
  match e with ConsoleInfo _ => true | _ => false end.

(** The service is built or started. *)
Definition isServiceStart (e : Event) : bool :=
  match e with
  | NewAutodiscovery _ _ | ServiceReady => true
  | _ => false
  end.

(** Every [client.list] call of the trace comes after a call of
    [client.ensureDbLoaded]; [seen] says whether one was made already. *)
Fixpoint loadedFirst (seen : bool) (t : Trace) : bool :=
  match t with
  | [] => true
  | e :: t' =>
      if isListCall e then seen && loadedFirst seen t'
      else loadedFirst (seen || isEnsure e) t'
  end.

(** The value configured from a flag that takes an integer: the default
    when the flag is undefined or holds the empty string, and what
    [parse] makes of the flag otherwise. *)
Definition configuredFrom (parse : string -> JsNum) (f : Flag) (d : Z)
           (n : JsNum) : Prop :=
  (f = None -> n = Num d)
  /\ (f = Some "" -> n = Num d)
  /\ (forall v, f = Some v -> v <> "" -> n = parse v).

(** What [run] hands to the middleware, in terms of the flags. *)
Definition middlewareOf (env : Server.RunEnv) (flags : Server.RunFlags)
  : MiddlewareOpts :=
  {| rateLimit :=
       {| rlCapacity := Server.parseOr env (Server.rateLimitCapacity flags) 10;
          intervalMs := Server.parseOr env (Server.rateLimitIntervalMs flags) 100 |};
     concurrentLimit :=
       {| clCapacity :=
            Server.parseOr env (Server.concurrentLimitCapacity flags) 16 |} |}.

(** The same collaborators, with another answer to the request. *)
Definition answering (env : Client.RpcEnv) (r : Settle unit) : Client.RpcEnv :=
  {| Client.decodeKey := Client.decodeKey env;
     Client.normalizeKey := Client.normalizeKey env;
     Client.keyPairOf := Client.keyPairOf env;
     Client.ready := Client.ready env;
     Client.request := r;
     Client.opened := Client.opened env;
     Client.close := Client.close env;
     Client.dhtDestroy := Client.dhtDestroy env |}.

(** One session, one command, one response, for a run of [delete] or
    [register] that left the trace [t] and ended as [o]:
    - at most one client is built and at most one request is made;
    - the client is built for the server whose key was given, with the
      seed given;
    - a request is made on a client built before;
    - once the request is made, the command ends as the request settles:
      it throws what the request rejects with, and waits as long as the
      request is pending; in neither case is a second request made;
    - a run that goes to its end made exactly one request on one client. *)
Definition oneShot (env : Client.RpcEnv) (rpcKey accessSeed : string)
           (t : Trace) (o : Outcome unit) : Prop :=
  length (filter isSession t) <= 1
  /\ length (filter isRequest t) <= 1
  /\ (forall e, In e t -> isSession e = true ->
       exists k s,
         Client.decodeKey env (Some rpcKey) = inr k
         /\ Client.decodeKey env (Some accessSeed) = inr s
         /\ (e = NewDeleteClient k s \/ e = NewRegisterClient k s))
  /\ (length (filter isRequest t) = 1 -> length (filter isSession t) = 1)
  /\ (length (filter isRequest t) = 1 ->
      forall e, Client.request env = Rejects e -> o = Thrown e)
  /\ (length (filter isRequest t) = 1 ->
      Client.request env = Pending -> o = Hang)
  /\ (forall c, o = Exited c -> length (filter isRequest t) = 1).

End Obs.
Import Obs.

(* ===================================================================== *)
(** * Sample collaborators, for running the commands on concrete inputs *)
(* ===================================================================== *)

Module Sample.

Definition invalidKey : JsError := mkError "Invalid Hypercore key".

(** A stand-in for the key encoding: a key is written as four characters. *)
Definition decode4 (v : option string) : JsError + Buffer :=
  match v with
  | Some s =>
      if (String.length s =? 4)%nat then inr (list_byte_of_string s)
      else inl invalidKey
  | None => inl invalidKey
  end.

Definition normalize4 (b : Buffer) : string := string_of_list_byte b.

(** A stand-in for [parseInt]: an unsigned decimal numeral, else [NaN]. *)
Definition parseDecimal (s : string) : JsNum :=
  match NilZero.uint_of_string s with
  | Some d => Num (Z.of_uint d)
  | None => NaN
  end.

Definition keyA : Buffer := list_byte_of_string "keyA".
Definition keyB : Buffer := list_byte_of_string "keyB".

Definition lookupEnv (loaded : Settle unit) (entries : list Client.Entry)
  : Client.LookupEnv :=
  {| Client.decode := decode4;
     Client.normalize := normalize4;
     Client.clientReady := Resolves tt;
     Client.ensureDbLoaded := loaded;
     Client.coreLength := 7;
     Client.clientList := fun _ _ => Resolves (mkIter entries (Resolves tt));
     Client.clientClose := Resolves tt;
     Client.swarmDestroy := Resolves tt;
     Client.storeClose := Resolves tt |}.

Definition listArgs : Client.ListArgs :=
  {| Client.dbKey := "dbk1"; Client.service := "search" |}.

Definition listFlags (limit : Flag) : Client.ListFlags :=
  {| Client.storage := None; Client.limit := limit; Client.debug := true |}.

(** The key pair of a seed: a stand-in that derives the public key by
    reversing the seed. *)
Definition keyPairOfSeed (seed : Buffer) : KeyPair :=
  {| publicKey := rev seed |}.

Definition rpcEnv (req : Settle unit) : Client.RpcEnv :=
  {| Client.decodeKey := decode4;
     Client.normalizeKey := normalize4;
     Client.keyPairOf := keyPairOfSeed;
     Client.ready := Resolves tt;
     Client.request := req;
     Client.opened := true;
     Client.close := Resolves tt;
     Client.dhtDestroy := Resolves tt |}.

Definition deleteArgs : Client.DeleteArgs :=
  {| Client.delRpcKey := "rpc1";
     Client.delAccessSeed := "seed";
     Client.delPublicKey := "keyA" |}.

Definition registerArgs : Client.RegisterArgs :=
  {| Client.regRpcKey := "rpc1";
     Client.regAccessSeed := "seed";
     Client.regServiceName := "search";
     Client.regPublicKey := "keyA" |}.

Definition runEnv : Server.RunEnv :=
  {| Server.decode := decode4;
     Server.normalize := normalize4;
     Server.parseInt := parseDecimal;
     Server.pathResolve := fun p => ("/srv/" ++ p)%string;
     Server.ownVersion := "1.0.0";
     Server.storeReady := Resolves tt;
     Server.createKeyPair := fun _ => Resolves {| publicKey := keyA |};
     Server.instrumentationReady := Resolves tt;
     Server.serviceReady := Resolves tt;
     Server.baseDiscoveryKey := list_byte_of_string "bdk1";
     Server.dbDiscoveryKey := list_byte_of_string "ddk1";
     Server.baseKey := list_byte_of_string "base";
     Server.dbKey := list_byte_of_string "dbk1";
     Server.serverPublicKey := keyA;
     Server.dbLength := 3;
     Server.instrumentationClose := Resolves tt;
     Server.swarmDestroy := Resolves tt;
     Server.serviceClose := Resolves tt;
     Server.routerClose := Resolves tt |}.

Definition runArgs : Server.RunArgs :=
  {| Server.rpcAllowedPublicKey := "dees" |}.

Definition noFlags : Server.RunFlags :=
  {| Server.storage := None;
     Server.scraperPublicKey := None;
     Server.scraperSecret := None;
     Server.scraperAlias := None;
     Server.bootstrap := None;
     Server.rateLimitCapacity := None;
     Server.rateLimitIntervalMs := None;
     Server.concurrentLimitCapacity := None |}.

(** [--rate-limit-capacity] given with an empty value. *)
Definition emptyCapacityFlags : Server.RunFlags :=
  {| Server.storage := None;
     Server.scraperPublicKey := None;
     Server.scraperSecret := None;
     Server.scraperAlias := None;
     Server.bootstrap := None;
     Server.rateLimitCapacity := Some "";
     Server.rateLimitIntervalMs := None;
     Server.concurrentLimitCapacity := None |}.

(** The three limits given on the command line. *)
Definition limitFlags : Server.RunFlags :=
  {| Server.storage := None;
     Server.scraperPublicKey := None;
     Server.scraperSecret := None;
     Server.scraperAlias := None;
     Server.bootstrap := Some "127.0.0.1:10000";
     Server.rateLimitCapacity := Some "2";
     Server.rateLimitIntervalMs := Some "1000";
     Server.concurrentLimitCapacity := Some "0" |}.

Definition entryA : Client.Entry := {| Client.entryPublicKey := keyA |}.

(** A run of [list] during which a peer connects, once the handler is
    registered. *)
Definition sched : list bool := [true; true; true; false; true; false; false].

Definition listExecution (limit : Flag) : Trace :=
  Client.lookupExecution (lookupEnv (Resolves tt) [entryA]) listArgs
                         (listFlags limit) [Client.Connected keyB] sched.

(** A metrics scraper is configured, with the alias given. *)
Definition scraperFlags (alias : Flag) : Server.RunFlags :=
  {| Server.storage := None;
     Server.scraperPublicKey := Some "scr1";
     Server.scraperSecret := Some "sec1";
     Server.scraperAlias := alias;
     Server.bootstrap := None;
     Server.rateLimitCapacity := None;
     Server.rateLimitIntervalMs := None;
     Server.concurrentLimitCapacity := None |}.

(** An alias of 100 characters. *)
Definition longAlias : string := String.concat "" (repeat "0123456789" 10).

End Sample.

(* ===================================================================== *)
(** * Further observations: order, clean-up, handlers *)
(* ===================================================================== *)

Module More.

(** Every event that satisfies [q] comes after an event that satisfies
    [p]; [seen] says whether one was met already. *)
Fixpoint comesAfter (p q : Event -> bool) (seen : bool) (t : Trace) : bool :=
  match t with
  | [] => true
  | e :: t' =>
      if q e then seen && comesAfter p q seen t'
      else comesAfter p q (seen || p e) t'
  end.

Definition isServiceReady (e : Event) : bool :=
  match e with ServiceReady => true | _ => false end.

Definition isGoodbyeRegister (e : Event) : bool :=
  match e with GoodbyeRegister => true | _ => false end.

(** [instrumentation.ready()] or [service.ready()]. *)
Definition isStart (e : Event) : bool :=
  match e with
  | InstrumentationReady | ServiceReady => true
  | _ => false
  end.

(** [client.close()], [swarm.destroy()] or [store.close()]. *)
Definition isCleanUp (e : Event) : bool :=
  match e with
  | ClientClose | SwarmDestroy | StoreClose => true
  | _ => false
  end.

Definition isClientReady (e : Event) : bool :=
  match e with ClientReady => true | _ => false end.

Definition isReplicate (e : Event) : bool :=
  match e with StoreReplicate => true | _ => false end.

Definition isConsoleDebug (e : Event) : bool :=
  match e with ConsoleDebug _ => true | _ => false end.

Definition isConnected (ev : Client.SwarmEvent) : bool :=
  match ev with Client.Connected _ => true | Client.Closed _ => false end.

(** Anything done with the instrumentation. *)
Definition isInstrumentation (e : Event) : bool :=
  match e with
  | NewInstrumentation _ | InstrumentationRegisterLogger
  | RouterRegisterMetrics | InstrumentationReady | InstrumentationClose => true
  | _ => false
  end.

(** What a log line of the server's handlers is: [logger.info], or the
    registration of the handler of [close]. *)
Definition isHandlerEvent (e : Event) : bool :=
  match e with
  | LoggerInfo _ | ConnOnClose => true
  | _ => false
  end.

(** The line [list] prints for an entry. *)
Definition entryLine (env : Client.LookupEnv) (entry : Client.Entry) : Event :=
  ConsoleInfo ("  - " ++ Client.normalize env (Client.entryPublicKey entry)).

(** The character [c] does not occur in [s]. *)
Fixpoint lacks (c : ascii) (s : string) : bool :=
  match s with
  | EmptyString => true
  | String a rest => negb (Ascii.eqb a c) && lacks c rest
  end.

(** The number of occurrences of [c] in [s]. *)
Fixpoint occurrences (c : ascii) (s : string) : nat :=
  match s with
  | EmptyString => 0
  | String a rest =>
      (if Ascii.eqb a c then 1 else 0) + occurrences c rest
  end.

(** The value of [flag || d] for a flag that holds a path or a name. *)
Definition takenFrom (f : Flag) (d : string) (s : string) : Prop :=
  (f = None -> s = d)
  /\ (f = Some "" -> s = d)
  /\ (forall v, f = Some v -> v <> "" -> s = v).

End More.
Import More.

Module MoreSamples.

Definition keyC : Buffer := list_byte_of_string "keyC".

Definition entryB : Client.Entry := {| Client.entryPublicKey := Sample.keyB |}.

(** The collaborators of [list] when the sequence of entries yields
    [entries] and then ends as [fin]. *)
Definition iterEnv (entries : list Client.Entry) (fin : Settle unit)
  : Client.LookupEnv :=
  {| Client.decode := Sample.decode4;
     Client.normalize := Sample.normalize4;
     Client.clientReady := Resolves tt;
     Client.ensureDbLoaded := Resolves tt;
     Client.coreLength := 7;
     Client.clientList := fun _ _ => Resolves (mkIter entries fin);
     Client.clientClose := Resolves tt;
     Client.swarmDestroy := Resolves tt;
     Client.storeClose := Resolves tt |}.

(** [list] given a key that does not decode. *)
Definition badListArgs : Client.ListArgs :=
  {| Client.dbKey := "not-a-key"; Client.service := "search" |}.

(** [delete] given a seed that does not decode. *)
Definition badSeedArgs : Client.DeleteArgs :=
  {| Client.delRpcKey := "rpc1";
     Client.delAccessSeed := "not-a-seed";
     Client.delPublicKey := "keyA" |}.

(** [run] given a key that does not decode. *)
Definition badRunArgs : Server.RunArgs :=
  {| Server.rpcAllowedPublicKey := "not-a-key" |}.

(** The collaborators of [run] when [service.ready()] answers [ready]
    and [swarm.destroy()] answers [destroyed]. *)
Definition serviceEnv (ready destroyed : Settle unit) : Server.RunEnv :=
  {| Server.decode := Sample.decode4;
     Server.normalize := Sample.normalize4;
     Server.parseInt := Sample.parseDecimal;
     Server.pathResolve := fun p => ("/srv/" ++ p)%string;
     Server.ownVersion := "1.0.0";
     Server.storeReady := Resolves tt;
     Server.createKeyPair := fun _ => Resolves {| publicKey := Sample.keyA |};
     Server.instrumentationReady := Resolves tt;
     Server.serviceReady := ready;
     Server.baseDiscoveryKey := list_byte_of_string "bdk1";
     Server.dbDiscoveryKey := list_byte_of_string "ddk1";
     Server.baseKey := list_byte_of_string "base";
     Server.dbKey := list_byte_of_string "dbk1";
     Server.serverPublicKey := Sample.keyA;
     Server.dbLength := 3;
     Server.instrumentationClose := Resolves tt;
     Server.swarmDestroy := destroyed;
     Server.serviceClose := Resolves tt;
     Server.routerClose := Resolves tt |}.

(** [--storage data] and nothing else. *)
Definition storageFlags : Server.RunFlags :=
  {| Server.storage := Some "data";
     Server.scraperPublicKey := None;
     Server.scraperSecret := None;
     Server.scraperAlias := None;
     Server.bootstrap := None;
     Server.rateLimitCapacity := None;
     Server.rateLimitIntervalMs := None;
     Server.concurrentLimitCapacity := None |}.

(** An alias of 60 accented letters, each of the two bytes 195 and 169:
    60 UTF-16 code units, 120 bytes. *)
Definition accentedAlias : string :=
  String.concat "" (repeat (String (ascii_of_nat 195)
                                   (String (ascii_of_nat 169) "")) 60).

(** An execution of [run] during which a peer connects, an RPC session
    opens and the peer goes away. *)
Definition runEvents : list Server.ServerEvent :=
  [Server.Connected Sample.keyB; Server.RpcSession; Server.Closed Sample.keyB].

End MoreSamples.

(* ===================================================================== *)
(** * Reasoning about runs *)
(* ===================================================================== *)

(** [sat m Q]: the trace and the outcome of [m] satisfy [Q]. *)
Definition sat {A} (m : Run A) (Q : Trace -> Outcome A -> Prop) : Prop :=
  Q (trace m) (outcome m).

Section RunRules.

Context {A B : Type}.

Lemma sat_ret (a : A) Q : Q [] (Done a) -> sat (ret a) Q.
Proof. exact id. Qed.

Lemma sat_emit (e : Event) Q : Q [e] (Done tt) -> sat (emit e) Q.
Proof. exact id. Qed.

Lemma sat_throw (e : JsError) (Q : Trace -> Outcome A -> Prop) :
  Q [] (Thrown e) -> sat (throw e) Q.
Proof. exact id. Qed.

Lemma sat_exit (c : Z) (Q : Trace -> Outcome A -> Prop) :
  Q [] (Exited c) -> sat (exit c) Q.
Proof. exact id. Qed.

Lemma sat_pair (t : Trace) (o : Outcome A) Q : Q t o -> sat (t, o) Q.
Proof. exact id. Qed.

Lemma sat_lift (r : JsError + A) Q :
  match r with
  | inl e => Q [] (Thrown e)
  | inr a => Q [] (Done a)
  end -> sat (lift r) Q.
Proof. destruct r; exact id. Qed.

Lemma sat_await (call : Event) (s : Settle A) Q :
  match s with
  | Resolves a => Q [call] (Done a)
  | Rejects e => Q [call] (Thrown e)
  | Pending => Q [call] Hang
  end -> sat (await call s) Q.
Proof. destruct s; exact id. Qed.

(** The rule of sequencing: what follows runs only after a normal end,
    and its trace is appended. *)
Lemma sat_bind (m : Run A) (k : A -> Run B) Q :
  sat m (fun t o =>
           match o with
           | Done a => sat (k a) (fun t' o' => Q (t ++ t') o')
           | Thrown e => Q t (Thrown e)
           | Exited c => Q t (Exited c)
           | Hang => Q t Hang
           end) ->
  sat (bind m k) Q.
Proof.
  destruct m as [t [a | e | c | ]]; unfold sat, bind, trace, outcome; cbn;
    auto.
  destruct (k a); auto.
Qed.

Lemma sat_tryCatch (m : Run A) (h : JsError -> Run A) Q :
  sat m (fun t o =>
           match o with
           | Thrown e => sat (h e) (fun t' o' => Q (t ++ t') o')
           | _ => Q t o
           end) ->
  sat (tryCatch m h) Q.
Proof.
  destruct m as [t [a | e | c | ]]; unfold sat, tryCatch, trace, outcome; cbn;
    auto.
  destruct (h e); auto.
Qed.

End RunRules.

Lemma sat_when (b : bool) (m : Run unit) Q :
  (if b then sat m Q else Q [] (Done tt)) -> sat (when b m) Q.
Proof. destruct b; exact id. Qed.

(** The loop of [list]: one line per entry, and [foundOne] is set as soon
    as there is one. *)
Lemma forAwait_lines {X} (line : X -> Event) (xs : list X) (fin : Settle unit)
      (s : bool) :
  forAwait xs fin (fun x _ => emit (line x) ;; ret true) s =
  (map line xs,
   match fin with
   | Resolves _ => Done (match xs with [] => s | _ :: _ => true end)
   | Rejects e => Thrown e
   | Pending => Hang
   end).
Proof.
  revert s; induction xs as [| x xs IH]; intros s.
  - destruct fin; reflexivity.
  - cbn [forAwait map]. unfold bind at 1. cbn. rewrite IH.
    destruct fin; destruct xs; reflexivity.
Qed.

(** Symbolic execution of a command, one step at a time. *)
Ltac run_step :=
  lazymatch goal with
  | |- sat (bind _ _) _ => apply sat_bind
  | |- sat (emit _) _ => apply sat_emit
  | |- sat (ret _) _ => apply sat_ret
  | |- sat (throw _) _ => apply sat_throw
  | |- sat (exit _) _ => apply sat_exit
  | |- sat (lift ?r) _ => apply sat_lift; destruct r eqn:?
  | |- sat (await _ ?s) _ => apply sat_await; destruct s eqn:?
  | |- sat (tryCatch _ _) _ => apply sat_tryCatch
  | |- sat (when ?b _) _ =>
      apply sat_when; cbn [negb];
      lazymatch goal with
      | |- if true then _ else _ => idtac
      | |- if false then _ else _ => idtac
      | |- if ?c then _ else _ => destruct c eqn:?
      | |- _ => idtac
      end
  | |- sat (forAwait _ ?fin _ _) _ =>
      rewrite forAwait_lines; apply sat_pair; destruct fin eqn:?
  | |- sat (match ?x with _ => _ end) _ => destruct x eqn:?
  | |- sat (let _ := _ in _) _ => cbv zeta
  end; cbv beta iota.

Ltac run := repeat run_step.

(** ** Handlers interleaved with a command *)

Lemma interleave_app (main cb : Trace) : Interleave main cb (main ++ cb).
Proof.
  induction main as [| x main IH]; cbn.
  - induction cb as [| y cb IH]; constructor; exact IH.
  - constructor; exact IH.
Qed.

Lemma interleave_only_cb (cb : Trace) : Interleave [] cb cb.
Proof. exact (interleave_app [] cb). Qed.

Lemma interleave_only_main (main : Trace) : Interleave main [] main.
Proof.
  rewrite <- (app_nil_r main) at 2. apply interleave_app.
Qed.

(** [weave] yields interleavings, and yields them all. *)
Lemma weave_interleave (sched : list bool) :
  forall main cb, Interleave main cb (weave sched main cb).
Proof.
  induction sched as [| [|] sched IH]; intros main cb; cbn [weave].
  - apply interleave_app.
  - destruct main as [| x main];
      [apply interleave_only_cb | constructor; apply IH].
  - destruct cb as [| y cb];
      [apply interleave_only_main | constructor; apply IH].
Qed.

Lemma interleave_weave (main cb whole : Trace) :
  Interleave main cb whole -> exists sched, weave sched main cb = whole.
Proof.
  induction 1 as [| x main cb whole _ [sched IH]
                    | y main cb whole _ [sched IH]].
  - now exists [].
  - exists (true :: sched). cbn. now rewrite IH.
  - exists (false :: sched). cbn. now rewrite IH.
Qed.

Lemma filter_none (p : Event -> bool) (l : Trace) :
  Forall (fun e => p e = false) l -> filter p l = [].
Proof.
  induction 1 as [| y l Hy _ IH]; cbn; [reflexivity | now rewrite Hy].
Qed.

Lemma filter_weave (p : Event -> bool) (sched : list bool) :
  forall main cb,
    Forall (fun e => p e = false) cb ->
    filter p (weave sched main cb) = filter p main.
Proof.
  induction sched as [| [|] sched IH]; intros main cb Hcb; cbn [weave].
  - now rewrite filter_app, (filter_none p cb Hcb), app_nil_r.
  - destruct main as [| x main]; cbn [filter].
    + now apply filter_none.
    + now rewrite IH.
  - destruct cb as [| y cb]; [reflexivity |].
    inversion Hcb as [| ? ? Hy Hcb']; subst.
    cbn [filter]. rewrite Hy. now apply IH.
Qed.

Lemma runHandlers_quiet (p : Event -> bool) env evs :
  (forall s, p (LoggerInfo s) = false) -> p ConnOnClose = false ->
  Forall (fun e => p e = false) (Server.runHandlers env evs).
Proof.
  intros Hlog Hclose. unfold Server.runHandlers.
  induction evs as [| [k | k |] evs IH]; cbn; auto.
Qed.

(* ===================================================================== *)
(** * The server: [run] *)
(* ===================================================================== *)

(** Going through a trace for the events [H] says are in it: [H] is left
    as an equation for each event that may be the one. *)
Ltac scan H :=
  lazymatch type of H with
  | In _ (_ :: _) =>
      destruct H as [H | H]; [ try discriminate H | scan H ]
  | In _ (map _ _ ++ _) =>
      apply in_app_or in H; destruct H as [H | H];
      [ apply in_map_iff in H; destruct H as [? [H _]]; try discriminate H
      | scan H ]
  | In _ (map _ _) =>
      apply in_map_iff in H; destruct H as [? [H _]]; try discriminate H
  | In _ [] => contradiction
  | False => contradiction
  end.

Ltac one_unit := repeat match goal with u : unit |- _ => destruct u end.

Ltac not_in_trace H :=
  cbn in H; repeat (destruct H as [H | H]; try discriminate H);
  try contradiction.


(** A start-up goes through when the key decodes and the store, the
    instrumentation if any, and the service answer. *)
Lemma runCmd_completes env args flags :
  sat (Server.runCmd env args flags)
      (fun t o =>
         forall k swarmKeyPair,
           Server.decode env (Some (Server.rpcAllowedPublicKey args)) = inr k ->
           Server.storeReady env = Resolves tt ->
           Server.createKeyPair env "public-key" = Resolves swarmKeyPair ->
           Server.serviceReady env = Resolves tt ->
           (flagTruthy (Server.scraperPublicKey flags) = true ->
            (exists pk,
                Server.decode env (Server.scraperPublicKey flags) = inr pk)
            /\ (exists sk,
                   Server.decode env (Server.scraperSecret flags) = inr sk)
            /\ (forall a, Server.scraperAlias flags = Some a ->
                          jsLength a <= 99)
            /\ Server.instrumentationReady env = Resolves tt) ->
           o = Done tt).
Proof.
  unfold Server.runCmd, Server.setUpInstrumentation.
  run.
  all: intros k kp Hk Hstore Hkp Hservice Hinstr; try congruence.
  all: try (destruct (Hinstr eq_refl) as [[pk Hpk] [[sk Hsk] [Halias Hready]]]);
    try congruence.
  all: try (one_unit; reflexivity).
  all: exfalso;
    match goal with
    | H : _ && _ = true |- _ =>
        destruct (Server.scraperAlias flags) as [alias |];
        [ apply andb_prop in H as [_ H]; apply Nat.ltb_lt in H;
          specialize (Halias alias eq_refl); cbn [toStringOpt] in H; lia
        | discriminate H ]
    end.
Qed.

(** C1, as the code has it.  [run] joins two topics, in two separate
    calls made once the service is ready, and both are discovery keys of
    the service's own replicated data: [service.base.discoveryKey] with no
    options, then [service.dbDiscoveryKey], the discovery key of the
    name-service database, as client and server at once.  These are the
    only joins of any execution of the command, with its handlers
    interleaved, and a start-up that does not complete joins nothing.  A
    start-up completes, and so joins both, whenever the allowed key
    decodes and the store, the instrumentation if one is configured, and
    the service answer. *)
Theorem runCmd_joins_two_topics env args flags evs sched :
  filter isJoin (Server.runExecution env args flags evs sched) =
  match outcome (Server.runCmd env args flags) with
  | Done _ => [SwarmJoin (Server.baseDiscoveryKey env) None;
               SwarmJoin (Server.dbDiscoveryKey env)
                         (Some {| joinClient := true; joinServer := true |})]
  | _ => []
  end
  /\ (forall k swarmKeyPair,
         Server.decode env (Some (Server.rpcAllowedPublicKey args)) = inr k ->
         Server.storeReady env = Resolves tt ->
         Server.createKeyPair env "public-key" = Resolves swarmKeyPair ->
         Server.serviceReady env = Resolves tt ->
         (flagTruthy (Server.scraperPublicKey flags) = true ->
          (exists pk,
              Server.decode env (Server.scraperPublicKey flags) = inr pk)
          /\ (exists sk,
                 Server.decode env (Server.scraperSecret flags) = inr sk)
          /\ (forall a, Server.scraperAlias flags = Some a ->
                        jsLength a <= 99)
          /\ Server.instrumentationReady env = Resolves tt) ->
         outcome (Server.runCmd env args flags) = Done tt
         /\ filter isJoin (Server.runExecution env args flags evs sched)
            = [SwarmJoin (Server.baseDiscoveryKey env) None;
               SwarmJoin (Server.dbDiscoveryKey env)
                         (Some {| joinClient := true;
                                  joinServer := true |})]).
Proof.
  assert (Hjoins :
            filter isJoin (Server.runExecution env args flags evs sched) =
            match outcome (Server.runCmd env args flags) with
            | Done _ => [SwarmJoin (Server.baseDiscoveryKey env) None;
                         SwarmJoin (Server.dbDiscoveryKey env)
                                   (Some Server.hybrid)]
            | _ => []
            end).
  { unfold Server.runExecution.
    rewrite filter_weave by (apply runHandlers_quiet; reflexivity).
    change (sat (Server.runCmd env args flags)
              (fun t o =>
                 filter isJoin t =
                 match o with
                 | Done _ => [SwarmJoin (Server.baseDiscoveryKey env) None;
                              SwarmJoin (Server.dbDiscoveryKey env)
                                        (Some Server.hybrid)]
                 | _ => []
                 end)).
    unfold Server.runCmd, Server.setUpInstrumentation.
    run; reflexivity. }
  split; [exact Hjoins |].
  intros k kp Hk Hstore Hkp Hservice Hinstr.
  pose proof (runCmd_completes env args flags k kp Hk Hstore Hkp Hservice
                               Hinstr) as Ho.
  unfold sat in Ho. split; [exact Ho |].
  rewrite Hjoins, Ho. reflexivity.
Qed.

(** C1 on the sample start-up: it completes and joins the two topics. *)
Lemma runCmd_joins_two_topics_witness :
  outcome (Server.runCmd Sample.runEnv Sample.runArgs Sample.noFlags)
  = Done tt
  /\ filter isJoin (Server.runExecution Sample.runEnv Sample.runArgs
                                        Sample.noFlags [] [])
     = [SwarmJoin (list_byte_of_string "bdk1") None;
        SwarmJoin (list_byte_of_string "ddk1")
                  (Some {| joinClient := true; joinServer := true |})].
Proof.
  refine (proj2 (runCmd_joins_two_topics Sample.runEnv Sample.runArgs
                                         Sample.noFlags [] [])
                (list_byte_of_string "dees") {| publicKey := Sample.keyA |}
                eq_refl eq_refl eq_refl eq_refl _).
  intros H. discriminate H.
Defined.

(** C1, as stated, fails on the sample start-up.  The claim has the
    registry's replication topic joined without options and another topic,
    for reaching the RPC server, joined as client and server.  The topic
    joined as client and server is the discovery key of the database
    itself (the source says it is so joined to be replicated by blind
    peers), the database's topic is not joined without options, no topic
    other than the two discovery keys of the service's data is joined, and
    the public key of the RPC server is not a topic of any join. *)
Lemma runCmd_hybrid_topic_counterexample :
  (forall topic,
      In (SwarmJoin topic (Some {| joinClient := true; joinServer := true |}))
         (trace (Server.runCmd Sample.runEnv Sample.runArgs Sample.noFlags)) ->
      topic = Server.dbDiscoveryKey Sample.runEnv)
  /\ ~ In (SwarmJoin (Server.dbDiscoveryKey Sample.runEnv) None)
          (trace (Server.runCmd Sample.runEnv Sample.runArgs Sample.noFlags))
  /\ ~ (exists topic opts,
           In (SwarmJoin topic opts)
              (trace (Server.runCmd Sample.runEnv Sample.runArgs
                                    Sample.noFlags))
           /\ topic <> Server.baseDiscoveryKey Sample.runEnv
           /\ topic <> Server.dbDiscoveryKey Sample.runEnv)
  /\ (forall opts,
         ~ In (SwarmJoin (Server.serverPublicKey Sample.runEnv) opts)
              (trace (Server.runCmd Sample.runEnv Sample.runArgs
                                    Sample.noFlags))).
Proof.
  split; [| split; [| split]].
  - intros topic Hin. vm_compute in Hin.
    repeat (destruct Hin as [Hin | Hin]; try discriminate Hin).
    + injection Hin as <-. reflexivity.
    + contradiction.
  - intros Hin. vm_compute in Hin.
    repeat (destruct Hin as [Hin | Hin]; try discriminate Hin).
    contradiction.
  - intros [topic [opts [Hin [Hbase Hdb]]]]. vm_compute in Hin.
    repeat (destruct Hin as [Hin | Hin]; try discriminate Hin).
    + injection Hin as <- _. now apply Hbase.
    + injection Hin as <- _. now apply Hdb.
    + contradiction.
  - intros opts Hin. vm_compute in Hin.
    repeat (destruct Hin as [Hin | Hin]; try discriminate Hin).
    contradiction.
Qed.

Lemma parseOr_configured env f d :
  configuredFrom (Server.parseInt env) f d (Server.parseOr env f d).
Proof.
  unfold configuredFrom, Server.parseOr.
  destruct f as [[| c s] |]; cbn; repeat split; intros; try congruence.
Qed.

Lemma runCmd_router_use env args flags :
  sat (Server.runCmd env args flags)
      (fun t o =>
         (forall opts, In (RouterUse opts) t -> opts = middlewareOf env flags)
         /\ (o = Done tt ->
             filter isRouterUse t = [RouterUse (middlewareOf env flags)])).
Proof.
  unfold Server.runCmd, Server.setUpInstrumentation.
  run.
  all: split; [| first [discriminate | intros _; reflexivity]].
  all: intros opts Hin; cbn [In app] in Hin.
  all: repeat (destruct Hin as [Hin | Hin]; try discriminate Hin).
  all: try contradiction.
  all: now injection Hin as <-.
Qed.

(** C2, as the code has it.  The middleware is configured once in a
    start-up that completes, and whenever it is configured each of its
    three limits comes from its flag: the default (10, 100 ms, 16) when
    the flag is absent or holds the empty string, and [parseInt] of the
    flag's value when it holds any other string. *)
Theorem runCmd_admission_settings env args flags :
  (outcome (Server.runCmd env args flags) = Done tt ->
   exists opts,
     filter isRouterUse (trace (Server.runCmd env args flags))
     = [RouterUse opts])
  /\ (forall opts,
        In (RouterUse opts) (trace (Server.runCmd env args flags)) ->
        configuredFrom (Server.parseInt env) (Server.rateLimitCapacity flags)
                       10 (rlCapacity (rateLimit opts))
        /\ configuredFrom (Server.parseInt env)
                          (Server.rateLimitIntervalMs flags)
                          100 (intervalMs (rateLimit opts))
        /\ configuredFrom (Server.parseInt env)
                          (Server.concurrentLimitCapacity flags)
                          16 (clCapacity (concurrentLimit opts))).
Proof.
  destruct (runCmd_router_use env args flags) as [Hin Hdone].
  split.
  - intros H. eexists. exact (Hdone H).
  - intros opts H. rewrite (Hin opts H). cbn.
    repeat split; apply parseOr_configured.
Qed.

(** C2, as stated, fails when a flag is present with an empty value:
    [--rate-limit-capacity] holds the empty string, and the capacity
    configured is the default 10, not [parseInt] of the value. *)
Lemma runCmd_empty_flag_counterexample :
  Server.rateLimitCapacity Sample.emptyCapacityFlags = Some ""
  /\ ~ (forall opts,
          In (RouterUse opts)
             (trace (Server.runCmd Sample.runEnv Sample.runArgs
                                   Sample.emptyCapacityFlags)) ->
          rlCapacity (rateLimit opts) = Server.parseInt Sample.runEnv "").
Proof.
  split; [reflexivity |].
  intros H.
  specialize (H (middlewareOf Sample.runEnv Sample.emptyCapacityFlags)).
  cbn in H. discriminate H. tauto.
Qed.

(** C2 on a concrete command line: limits 2, 1000 and 0 are given, and
    these are the limits the middleware gets. *)
Lemma runCmd_admission_settings_witness :
  In (RouterUse (middlewareOf Sample.runEnv Sample.limitFlags))
     (trace (Server.runCmd Sample.runEnv Sample.runArgs Sample.limitFlags))
  /\ rlCapacity (rateLimit (middlewareOf Sample.runEnv Sample.limitFlags))
     = Num 2
  /\ intervalMs (rateLimit (middlewareOf Sample.runEnv Sample.limitFlags))
     = Num 1000
  /\ clCapacity (concurrentLimit (middlewareOf Sample.runEnv Sample.limitFlags))
     = Num 0.
Proof.
  assert (Hin : In (RouterUse (middlewareOf Sample.runEnv Sample.limitFlags))
                   (trace (Server.runCmd Sample.runEnv Sample.runArgs
                                         Sample.limitFlags))).
  { vm_compute. tauto. }
  split; [exact Hin |].
  destruct (runCmd_admission_settings
              Sample.runEnv Sample.runArgs Sample.limitFlags) as [_ H].
  destruct (H _ Hin) as [[_ [_ H1]] [[_ [_ H2]] [_ [_ H3]]]].
  split; [| split].
  - apply (H1 "2"); [reflexivity | discriminate].
  - apply (H2 "1000"); [reflexivity | discriminate].
  - apply (H3 "0"); [reflexivity | discriminate].
Defined.

Lemma suffix_cons {X} (x : X) (l s : list X) :
  (exists pre, l = pre ++ s) -> exists pre, x :: l = pre ++ s.
Proof. intros [pre ->]. now exists (x :: pre). Qed.

Ltac find_suffix :=
  cbn [app];
  repeat lazymatch goal with
    | |- exists pre, [_; _; _; _; _] = pre ++ _ => exists []; reflexivity
    | |- exists pre, _ :: _ = pre ++ _ => apply suffix_cons
    end.

(** C5.  A start-up that completes ends by logging the length of the
    database (its version), the key of the base, the key of the
    name-service database and the public key of the RPC server, then the
    public key it accepts requests from. *)
Theorem runCmd_prints_keys env args flags :
  outcome (Server.runCmd env args flags) = Done tt ->
  exists pre allowed,
    Server.decode env (Some (Server.rpcAllowedPublicKey args)) = inr allowed
    /\ trace (Server.runCmd env args flags) =
       pre ++
       [LoggerInfo ("DB version: " ++ showNat (Server.dbLength env));
        LoggerInfo ("Autobase key: "
                    ++ Server.normalize env (Server.baseKey env));
        LoggerInfo ("Name-service database key: "
                    ++ Server.normalize env (Server.dbKey env));
        LoggerInfo ("RPC server public key: "
                    ++ Server.normalize env (Server.serverPublicKey env));
        LoggerInfo ("Accepting RPC connections from public key "
                    ++ Server.normalize env allowed)].
Proof.
  change (sat (Server.runCmd env args flags)
            (fun t o =>
               o = Done tt ->
               exists pre allowed,
                 Server.decode env (Some (Server.rpcAllowedPublicKey args))
                 = inr allowed
                 /\ t = pre ++
                      [LoggerInfo ("DB version: "
                                   ++ showNat (Server.dbLength env));
                       LoggerInfo ("Autobase key: "
                                   ++ Server.normalize env (Server.baseKey env));
                       LoggerInfo ("Name-service database key: "
                                   ++ Server.normalize env (Server.dbKey env));
                       LoggerInfo ("RPC server public key: "
                                   ++ Server.normalize env
                                        (Server.serverPublicKey env));
                       LoggerInfo ("Accepting RPC connections from public key "
                                   ++ Server.normalize env allowed)])).
  unfold Server.runCmd, Server.setUpInstrumentation.
  run; try discriminate.
  all: intros _;
    match goal with
    | |- exists pre allowed, inr ?b = inr allowed /\ ?t = pre ++ @?s allowed =>
        cut (exists pre, t = pre ++ s b);
        [ intros [pre Hpre]; exists pre, b; split; [reflexivity | exact Hpre]
        | cbv beta ]
    end.
  all: find_suffix.
Qed.

(** C5 on the sample start-up. *)
Lemma runCmd_prints_keys_witness :
  exists pre allowed,
    Server.decode Sample.runEnv (Some "dees") = inr allowed
    /\ trace (Server.runCmd Sample.runEnv Sample.runArgs Sample.noFlags) =
       pre ++
       [LoggerInfo "DB version: 3";
        LoggerInfo "Autobase key: base";
        LoggerInfo "Name-service database key: dbk1";
        LoggerInfo "RPC server public key: keyA";
        LoggerInfo ("Accepting RPC connections from public key "
                    ++ Server.normalize Sample.runEnv allowed)].
Proof.
  exact (runCmd_prints_keys Sample.runEnv Sample.runArgs Sample.noFlags
                            eq_refl).
Defined.

Lemma length_substring0 (n : nat) :
  forall s, String.length (substring 0 n s) <= n.
Proof.
  induction n as [| n IH]; intros [| c s]; cbn; auto with arith.
Qed.

Lemma isAscii_length (s : string) :
  isAscii s = true -> jsLength s = String.length s.
Proof.
  unfold jsLength. induction s as [| a s IH]; intros H; [reflexivity |].
  cbn [isAscii] in H. apply andb_prop in H as [Ha Hs].
  cbn [utf16Units String.length]. apply Nat.ltb_lt in Ha.
  replace (nat_of_ascii a <? 192)%nat with true
    by (symmetry; apply Nat.ltb_lt; lia).
  now rewrite (IH Hs).
Qed.

Lemma isAscii_append (a b : string) :
  isAscii a = true -> isAscii b = true -> isAscii (a ++ b)%string = true.
Proof.
  induction a as [| x a IH]; intros Ha Hb; [exact Hb |].
  cbn [isAscii append] in *. apply andb_prop in Ha as [Hx Ha].
  rewrite Hx. now apply IH.
Qed.

Lemma isAscii_substring0 (n : nat) :
  forall s, isAscii s = true -> isAscii (substring 0 n s) = true.
Proof.
  induction n as [| n IH]; intros [| c s] H; cbn [substring isAscii] in *;
    try reflexivity.
  apply andb_prop in H as [Hc Hs]. rewrite Hc. now apply IH.
Qed.

Lemma defaultAlias_short env k :
  isAscii (Server.normalize env k) = true ->
  jsLength (Server.defaultAlias env k) <= 99.
Proof.
  intros H. unfold Server.defaultAlias, slice0.
  rewrite isAscii_length.
  - apply length_substring0.
  - apply isAscii_substring0. now apply isAscii_append.
Qed.

Lemma alias_guard (a : string) :
  99 < jsLength a ->
  flagTruthy (Some a)
  && (99 <? jsLength (toStringOpt (Some a)))%nat = true.
Proof.
  intros H. cbn [flagTruthy toStringOpt].
  apply andb_true_intro; split.
  - destruct a; [cbn in H; lia | reflexivity].
  - now apply Nat.ltb_lt.
Qed.

Lemma alias_guard_short (a : string) :
  jsLength a <= 99 ->
  flagTruthy (Some a)
  && (99 <? jsLength (toStringOpt (Some a)))%nat = false.
Proof.
  intros H. cbn [toStringOpt].
  replace (99 <? jsLength a)%nat with false
    by (symmetry; apply Nat.ltb_ge; exact H).
  apply andb_false_r.
Qed.

(** With an alias that is too long, no run builds or starts the service or
    returns. *)
Lemma runCmd_long_alias env args flags a :
  flagTruthy (Server.scraperPublicKey flags) = true ->
  Server.scraperAlias flags = Some a ->
  99 < jsLength a ->
  sat (Server.runCmd env args flags)
      (fun t o =>
         Forall (fun e => isServiceStart e = false) t
         /\ (forall u, o <> Done u)).
Proof.
  intros Hscraper Halias Hlong.
  unfold Server.runCmd, Server.setUpInstrumentation.
  rewrite Hscraper, Halias, (alias_guard a Hlong).
  run.
  all: split; [repeat constructor | discriminate].
Qed.

(** C10.  With a metrics scraper configured ([--scraper-public-key]):
    - when [--scraper-alias] is given with more than 99 characters (its
      [length], in UTF-16 code units), no run builds or starts the
      service or returns;
    and, once the allowed key and the scraper's keys decode and the store
    has answered, so that the run gets to the alias,
    - with such an alias the run is: the logger, the store, the swarm, the
      line [Setting up instrumentation], and the error on the length of
      the alias thrown there, before the router and the service exist;
    - with an alias of at most 99 characters, the alias is handed to the
      instrumentation as it is;
    - with no alias (the flag is undefined or empty), the alias handed to
      the instrumentation is the first 99 characters of
      [autodiscovery-<swarm public key>], which has at most 99 characters
      (the key being written in ASCII), the error on the length is not
      thrown: the run throws only what [instrumentation.ready()] or
      [service.ready()] rejects with, and it returns when both resolve. *)
Theorem runCmd_scraper_alias env args flags :
  flagTruthy (Server.scraperPublicKey flags) = true ->
  (forall a,
      Server.scraperAlias flags = Some a ->
      99 < jsLength a ->
      Forall (fun e => isServiceStart e = false)
             (trace (Server.runCmd env args flags))
      /\ (forall u, outcome (Server.runCmd env args flags) <> Done u))
  /\ (forall k swarmKeyPair pk sk,
         Server.decode env (Some (Server.rpcAllowedPublicKey args)) = inr k ->
         Server.storeReady env = Resolves tt ->
         Server.createKeyPair env "public-key" = Resolves swarmKeyPair ->
         Server.decode env (Server.scraperPublicKey flags) = inr pk ->
         Server.decode env (Server.scraperSecret flags) = inr sk ->
         let storage :=
           Server.pathResolve env
             (orString (Server.storage flags) "autodiscovery") in
         let reached :=
           [NewLogger "autobase-discovery"]
           ++ (if flagTruthy (Server.bootstrap flags)
               then [LoggerWarn
                       (Server.bootstrapWarning
                          (Server.bootstrapNode
                             env (toStringOpt (Server.bootstrap flags))))]
               else [])
           ++ [LoggerInfo ("Using storage: " ++ storage);
               NewCorestore storage;
               StoreReady;
               StoreCreateKeyPair "public-key";
               NewHyperswarm
                 (Some {| keyPair := swarmKeyPair;
                          bootstrap :=
                            if flagTruthy (Server.bootstrap flags)
                            then Some [Server.bootstrapNode
                                         env
                                         (toStringOpt (Server.bootstrap flags))]
                            else None |});
               SwarmOnConnection;
               LoggerInfo "Setting up instrumentation"] in
         let handed alias :=
           [NewInstrumentation
              {| Effects.scraperPublicKey := pk;
                 prometheusAlias := alias;
                 Effects.scraperSecret := sk;
                 prometheusServiceName := "autodiscovery";
                 version := Server.ownVersion env |};
            InstrumentationRegisterLogger] in
         (forall a,
             Server.scraperAlias flags = Some a ->
             99 < jsLength a ->
             Server.runCmd env args flags
             = (reached,
                Thrown (mkError
                          "The Prometheus alias must have length less than 100")))
         /\ (forall a,
                Server.scraperAlias flags = Some a ->
                a <> "" ->
                jsLength a <= 99 ->
                exists rest,
                  trace (Server.runCmd env args flags)
                  = reached ++ handed a ++ rest)
         /\ (flagTruthy (Server.scraperAlias flags) = false ->
             isAscii (Server.normalize env (publicKey swarmKeyPair)) = true ->
             let alias :=
               slice0 99 ("autodiscovery-"
                          ++ Server.normalize env (publicKey swarmKeyPair)) in
             jsLength alias <= 99
             /\ (exists rest,
                    trace (Server.runCmd env args flags)
                    = reached ++ handed alias ++ rest)
             /\ (forall e,
                    outcome (Server.runCmd env args flags) = Thrown e ->
                    Server.instrumentationReady env = Rejects e
                    \/ Server.serviceReady env = Rejects e)
             /\ (Server.instrumentationReady env = Resolves tt ->
                 Server.serviceReady env = Resolves tt ->
                 outcome (Server.runCmd env args flags) = Done tt))).
Proof.
  intros Hscraper. split.
  - intros a Ha Hlong.
    exact (runCmd_long_alias env args flags a Hscraper Ha Hlong).
  - intros k kp pk sk Hk Hstore Hkp Hpk Hsk storage reached handed.
    subst storage reached handed. split; [| split].
    + intros a Ha Hlong.
      unfold Server.runCmd, Server.setUpInstrumentation.
      rewrite Hscraper, Ha, (alias_guard a Hlong), Hk, Hstore, Hkp, Hpk, Hsk.
      destruct (flagTruthy (Server.bootstrap flags)); reflexivity.
    + intros a Ha Hne Hshort.
      unfold Server.runCmd, Server.setUpInstrumentation.
      rewrite Hscraper, Ha, (alias_guard_short a Hshort), Hk, Hstore, Hkp,
        Hpk, Hsk.
      destruct a as [| c a]; [congruence |]. cbn [flagTruthy truthy negb].
      destruct (flagTruthy (Server.bootstrap flags)),
        (Server.instrumentationReady env) as [[] | e1 |],
        (Server.serviceReady env) as [[] | e2 |];
        cbn; eexists; reflexivity.
    + intros Hnone Hascii alias. subst alias.
      split; [exact (defaultAlias_short env (publicKey kp) Hascii) |].
      unfold Server.runCmd, Server.setUpInstrumentation.
      rewrite Hscraper, Hnone, Hk, Hstore, Hkp, Hpk, Hsk.
      unfold Server.defaultAlias.
      destruct (flagTruthy (Server.bootstrap flags)),
        (Server.instrumentationReady env) as [[] | e1 |],
        (Server.serviceReady env) as [[] | e2 |];
        cbn.
      all: split; [eexists; reflexivity |].
      all: split; [intros e He; first [discriminate He | injection He as <-];
                   auto |].
      all: intros H1 H2; first [reflexivity | discriminate].
Qed.

(** C10 on the sample start-up: an alias of 100 characters stops it with
    the error on the length, an alias of 60 accented letters (60 code
    units, 120 bytes) is handed on as it is, and with no alias the start-up
    completes. *)
Lemma runCmd_scraper_alias_witness :
  outcome (Server.runCmd Sample.runEnv Sample.runArgs
                         (Sample.scraperFlags (Some Sample.longAlias)))
  = Thrown (mkError "The Prometheus alias must have length less than 100")
  /\ In (NewInstrumentation
           {| Effects.scraperPublicKey := list_byte_of_string "scr1";
              prometheusAlias := MoreSamples.accentedAlias;
              Effects.scraperSecret := list_byte_of_string "sec1";
              prometheusServiceName := "autodiscovery";
              version := "1.0.0" |})
        (trace (Server.runCmd Sample.runEnv Sample.runArgs
                              (Sample.scraperFlags
                                 (Some MoreSamples.accentedAlias))))
  /\ outcome (Server.runCmd Sample.runEnv Sample.runArgs
                            (Sample.scraperFlags None))
     = Done tt.
Proof.
  assert (Hlong : 99 < jsLength Sample.longAlias) by (vm_compute; lia).
  assert (Hshort : jsLength MoreSamples.accentedAlias <= 99)
    by (vm_compute; lia).
  split; [| split].
  - destruct (proj2 (runCmd_scraper_alias
                       Sample.runEnv Sample.runArgs
                       (Sample.scraperFlags (Some Sample.longAlias)) eq_refl)
                    (list_byte_of_string "dees") {| publicKey := Sample.keyA |}
                    (list_byte_of_string "scr1") (list_byte_of_string "sec1")
                    eq_refl eq_refl eq_refl eq_refl eq_refl) as [Hrun _].
    rewrite (Hrun Sample.longAlias eq_refl Hlong). reflexivity.
  - destruct (proj2 (runCmd_scraper_alias
                       Sample.runEnv Sample.runArgs
                       (Sample.scraperFlags (Some MoreSamples.accentedAlias))
                       eq_refl)
                    (list_byte_of_string "dees") {| publicKey := Sample.keyA |}
                    (list_byte_of_string "scr1") (list_byte_of_string "sec1")
                    eq_refl eq_refl eq_refl eq_refl eq_refl) as [_ [Hrun _]].
    destruct (Hrun MoreSamples.accentedAlias eq_refl) as [rest Hrest];
      [discriminate | exact Hshort |].
    rewrite Hrest. apply in_or_app. right. left. reflexivity.
  - destruct (proj2 (runCmd_scraper_alias
                       Sample.runEnv Sample.runArgs
                       (Sample.scraperFlags None) eq_refl)
                    (list_byte_of_string "dees") {| publicKey := Sample.keyA |}
                    (list_byte_of_string "scr1") (list_byte_of_string "sec1")
                    eq_refl eq_refl eq_refl eq_refl eq_refl) as [_ [_ Hrun]].
    destruct (Hrun eq_refl eq_refl) as [_ [_ [_ Hdone]]].
    exact (Hdone eq_refl eq_refl).
Defined.

(* ===================================================================== *)
(** * The client: [list] *)
(* ===================================================================== *)

Lemma lookupHandlers_quiet (p : Event -> bool) env debug evs :
  (forall s, p (ConsoleDebug s) = false) ->
  p ConnOnClose = false -> p StoreReplicate = false ->
  Forall (fun e => p e = false) (Client.lookupHandlers env debug evs).
Proof.
  intros Hdebug Hclose Hrepl. unfold Client.lookupHandlers.
  induction evs as [| [k | k] evs IH]; cbn [flat_map].
  - constructor.
  - unfold Client.lookupOnConnection.
    destruct debug; cbn [app]; repeat constructor; auto.
  - unfold Client.lookupOnClose.
    destruct debug; cbn [app]; repeat constructor; auto.
Qed.

Lemma in_weave (e : Event) (sched : list bool) :
  forall main cb, In e (weave sched main cb) -> In e main \/ In e cb.
Proof.
  induction sched as [| [|] sched IH]; intros main cb H; cbn [weave] in H.
  - now apply in_app_or.
  - destruct main as [| x main]; [now right |].
    destruct H as [-> | H]; [left; now left |].
    destruct (IH _ _ H); [left; now right | now right].
  - destruct cb as [| y cb]; [now left |].
    destruct H as [-> | H]; [right; now left |].
    destruct (IH _ _ H); [now left | right; now right].
Qed.

Lemma in_weave_main (p : Event -> bool) (e : Event) sched main cb :
  Forall (fun x => p x = false) cb -> p e = true ->
  In e (weave sched main cb) -> In e main.
Proof.
  intros Hcb He H. destruct (in_weave e sched main cb H) as [Hm | Hc].
  - exact Hm.
  - rewrite Forall_forall in Hcb. specialize (Hcb e Hc). congruence.
Qed.

(** ** [loadedFirst] *)

Lemma loadedFirst_lines (f : Client.Entry -> string) (xs : list Client.Entry)
      (seen : bool) (rest : Trace) :
  loadedFirst seen (map (fun x => ConsoleInfo (f x)) xs ++ rest)
  = loadedFirst seen rest.
Proof.
  induction xs as [| x xs IH]; cbn; [reflexivity |].
  now rewrite orb_false_r.
Qed.

Lemma loadedFirst_lines_only (f : Client.Entry -> string)
      (xs : list Client.Entry) (seen : bool) :
  loadedFirst seen (map (fun x => ConsoleInfo (f x)) xs) = true.
Proof.
  rewrite <- (app_nil_r (map _ xs)). now rewrite loadedFirst_lines.
Qed.

Lemma loadedFirst_weave (sched : list bool) :
  forall main cb seen seen',
    loadedFirst seen main = true ->
    Forall (fun e => isListCall e = false) cb ->
    (seen = true -> seen' = true) ->
    loadedFirst seen' (weave sched main cb) = true.
Proof.
  assert (Hquiet : forall cb seen,
             Forall (fun e => isListCall e = false) cb ->
             loadedFirst seen cb = true).
  { intros cb seen H; revert seen.
    induction H as [| y cb Hy _ IH]; intros seen; cbn; [reflexivity |].
    rewrite Hy. apply IH. }
  assert (Hmono : forall t seen seen',
             loadedFirst seen t = true -> (seen = true -> seen' = true) ->
             loadedFirst seen' t = true).
  { induction t as [| x t IH]; intros seen seen' H Himp; cbn in *;
      [reflexivity |].
    destruct (isListCall x).
    - apply andb_prop in H as [Hs Ht]. rewrite (Himp Hs). cbn.
      apply (IH seen); auto.
    - apply (IH _ _ H). intros Hor.
      apply orb_prop in Hor as [Hs | Hx]; [rewrite (Himp Hs) | rewrite Hx];
        auto using orb_true_r. }
  assert (Happ : forall t cb seen,
             loadedFirst seen t = true ->
             Forall (fun e => isListCall e = false) cb ->
             loadedFirst seen (t ++ cb) = true).
  { induction t as [| x t IH]; intros cb seen H Hcb; cbn in *;
      [now apply Hquiet |].
    destruct (isListCall x).
    - apply andb_prop in H as [Hs Ht]. subst seen. cbn. now apply IH.
    - now apply IH. }
  induction sched as [| [|] sched IH]; intros main cb seen seen' H Hcb Himp;
    cbn [weave].
  - apply (Hmono _ seen); [now apply Happ | exact Himp].
  - destruct main as [| x main]; [now apply Hquiet |].
    cbn in *. destruct (isListCall x).
    + apply andb_prop in H as [Hs Ht]. rewrite (Himp Hs). cbn.
      apply (IH _ _ seen); auto.
    + apply (IH _ _ _ _ H Hcb). intros Hor.
      apply orb_prop in Hor as [Hs | Hx]; [rewrite (Himp Hs) | rewrite Hx];
        auto using orb_true_r.
  - destruct cb as [| y cb]; [now apply (Hmono _ seen) |].
    inversion Hcb as [| ? ? Hy Hcb']; subst.
    cbn. rewrite Hy. apply (IH _ _ seen); auto.
    intros Hs. now rewrite (Himp Hs).
Qed.

Lemma loadedFirst_sound (t : Trace) :
  forall seen pre x post,
    loadedFirst seen t = true ->
    t = pre ++ x :: post ->
    isListCall x = true ->
    seen = true \/ In EnsureDbLoaded pre.
Proof.
  induction t as [| y t IH]; intros seen pre x post H Heq Hx.
  - destruct pre; discriminate Heq.
  - destruct pre as [| z pre]; cbn in Heq; injection Heq as <- ->.
    + cbn in H. rewrite Hx in H. apply andb_prop in H as [Hs _]. now left.
    + cbn in H. destruct (isListCall y).
      * apply andb_prop in H as [Hs _]. now left.
      * destruct (IH _ _ _ _ H eq_refl Hx) as [Hor | Hin].
        -- apply orb_prop in Hor as [Hs | Hy]; [now left |].
           right. left. destruct y; try discriminate Hy. reflexivity.
        -- right. now right.
Qed.

(** The trace of [list]: the database is loaded before entries are asked
    for, and entries are asked for with the service and the limit of the
    command line. *)
Lemma lookup_list_call env args flags :
  sat (Client.lookup env args flags)
      (fun t o =>
         loadedFirst false t = true
         /\ (forall svc lim,
                In (ClientList svc lim) t ->
                Client.ensureDbLoaded env = Resolves tt
                /\ svc = Client.service args
                /\ lim = orNumber (Client.limit flags) 10)).
Proof.
  unfold Client.lookup.
  run.
  all: cbn [app loadedFirst isListCall isEnsure orb andb].
  all: rewrite ?loadedFirst_lines, ?loadedFirst_lines_only.
  all: cbn [app loadedFirst isListCall isEnsure orb andb].
  all: split; [reflexivity |].
  all: intros svc lim Hin; cbn [app] in Hin; scan Hin.
  all: injection Hin as <- <-; one_unit; auto.
Qed.

(** C6.  In every execution of [list], with the handlers of the swarm
    interleaved, a call of [client.list] comes after a call of
    [client.ensureDbLoaded], and the promise of that call has resolved. *)
Theorem lookup_loads_before_listing env args flags evs sched pre svc lim post :
  Client.lookupExecution env args flags evs sched
  = pre ++ ClientList svc lim :: post ->
  In EnsureDbLoaded pre /\ Client.ensureDbLoaded env = Resolves tt.
Proof.
  intros Hexec.
  destruct (lookup_list_call env args flags) as [Hfirst Hcall].
  assert (Hquiet : Forall (fun e => isListCall e = false)
                          (Client.lookupHandlers env (Client.debug flags) evs))
    by (apply lookupHandlers_quiet; reflexivity).
  split.
  - assert (H : loadedFirst false
                  (Client.lookupExecution env args flags evs sched) = true)
      by (unfold Client.lookupExecution;
          apply (loadedFirst_weave sched _ _ false false Hfirst Hquiet); auto).
    destruct (loadedFirst_sound _ _ _ _ _ H Hexec eq_refl) as [Hf | Hin];
      [discriminate Hf | exact Hin].
  - assert (Hin : In (ClientList svc lim)
                     (Client.lookupExecution env args flags evs sched))
      by (rewrite Hexec; apply in_elt).
    apply (in_weave_main isListCall) in Hin; [| exact Hquiet | reflexivity].
    exact (proj1 (Hcall svc lim Hin)).
Qed.

(** C6 on a sample execution during which a peer connects. *)
Lemma lookup_loads_before_listing_witness :
  In EnsureDbLoaded (firstn 12 (Sample.listExecution None)).
Proof.
  refine (proj1 (lookup_loads_before_listing
                   (Sample.lookupEnv (Resolves tt) [Sample.entryA])
                   Sample.listArgs (Sample.listFlags None)
                   [Client.Connected Sample.keyB]
                   Sample.sched
                   (firstn 12 (Sample.listExecution None))
                   "search" (VNum (Num 10))
                   (skipn 13 (Sample.listExecution None)) _)).
  reflexivity.
Defined.

(** C8, as the code has it.  Every call of [client.list] in an execution
    of [list] asks for the service of the command line, with the limit 10
    when [--limit] is absent or holds the empty string, and with the value
    of [--limit], as the string it is, when it holds any other string. *)
Theorem lookup_limit env args flags evs sched svc lim :
  In (ClientList svc lim) (Client.lookupExecution env args flags evs sched) ->
  svc = Client.service args
  /\ (Client.limit flags = None -> lim = VNum (Num 10))
  /\ (Client.limit flags = Some "" -> lim = VNum (Num 10))
  /\ (forall v, Client.limit flags = Some v -> v <> "" -> lim = VStr v).
Proof.
  intros Hin.
  apply (in_weave_main isListCall) in Hin;
    [| apply lookupHandlers_quiet; reflexivity | reflexivity].
  destruct (proj2 (lookup_list_call env args flags) svc lim Hin)
    as [_ [-> ->]].
  split; [reflexivity |].
  destruct (Client.limit flags) as [[| c v] |]; cbn;
    repeat split; intros; congruence.
Qed.

(** C8 on a sample execution: [--limit 5] asks for the limit ["5"]. *)
Lemma lookup_limit_witness :
  In (ClientList "search" (VStr "5")) (Sample.listExecution (Some "5"))
  /\ (forall v,
         Client.limit (Sample.listFlags (Some "5")) = Some v ->
         v <> "" -> VStr "5" = VStr v).
Proof.
  assert (Hin : In (ClientList "search" (VStr "5"))
                   (Sample.listExecution (Some "5"))).
  { vm_compute. tauto. }
  split; [exact Hin |].
  exact (proj2 (proj2 (proj2
           (lookup_limit (Sample.lookupEnv (Resolves tt) [Sample.entryA])
                         Sample.listArgs (Sample.listFlags (Some "5"))
                         [Client.Connected Sample.keyB] Sample.sched
                         "search" (VStr "5") Hin)))).
Defined.

(** C8, as stated, fails when [--limit] is present with an empty value:
    the call is made with the default 10, not with the value given. *)
Lemma lookup_empty_limit_counterexample :
  Client.limit (Sample.listFlags (Some "")) = Some ""
  /\ In (ClientList "search" (VNum (Num 10))) (Sample.listExecution (Some ""))
  /\ ~ (forall svc lim,
          In (ClientList svc lim) (Sample.listExecution (Some "")) ->
          lim = VStr "").
Proof.
  split; [reflexivity |].
  assert (Hin : In (ClientList "search" (VNum (Num 10)))
                   (Sample.listExecution (Some "")))
    by (vm_compute; tauto).
  split; [exact Hin |].
  intros H. specialize (H _ _ Hin). discriminate H.
Qed.

Ltac find_suffix2 :=
  cbn [app];
  repeat lazymatch goal with
    | |- exists pre, [_; _] = pre ++ _ => exists []; reflexivity
    | |- exists pre, _ :: _ = pre ++ _ => apply suffix_cons
    end.

(** [list] when the database does not load. *)
Lemma lookup_load_failure env args flags :
  sat (Client.lookup env args flags)
      (fun t o =>
         forall e,
           Client.ensureDbLoaded env = Rejects e ->
           In EnsureDbLoaded t ->
           (exists pre, t = pre ++ [EnsureDbLoaded; ConsoleError (message e)])
           /\ o = Exited 1).
Proof.
  unfold Client.lookup.
  run.
  all: intros err Herr Hin; try discriminate Herr.
  all: try (cbn [app] in Hin; scan Hin; fail).
  injection Herr as <-. split; [find_suffix2 | reflexivity].
Qed.

(** [list] when every collaborator answers. *)
Lemma lookup_success env args flags :
  sat (Client.lookup env args flags)
      (fun t o =>
         forall k it,
           Client.decode env (Some (Client.dbKey args)) = inr k ->
           Client.clientReady env = Resolves tt ->
           Client.ensureDbLoaded env = Resolves tt ->
           Client.clientList env (Client.service args)
                             (orNumber (Client.limit flags) 10) = Resolves it ->
           finish it = Resolves tt ->
           Client.clientClose env = Resolves tt ->
           Client.swarmDestroy env = Resolves tt ->
           Client.storeClose env = Resolves tt ->
           o = Done tt
           /\ (forall s, ~ In (ConsoleError s) t)
           /\ (items it = [] ->
               t = [NewHyperswarm None;
                    NewCorestore (orString (Client.storage flags)
                                           "autodiscovery-client");
                    SwarmOnConnection;
                    NewLookupClient k "autodiscovery-lookup";
                    ClientReady;
                    ConsoleLog "Loading database...";
                    EnsureDbLoaded;
                    ConsoleLog ("Autobase Discovery database version: "
                                ++ showNat (Client.coreLength env));
                    ConsoleLog ("Available instances for service '"
                                ++ Client.service args ++ "':");
                    ClientList (Client.service args)
                               (orNumber (Client.limit flags) 10);
                    ConsoleInfo "None (did not find any instances)";
                    ClientClose;
                    SwarmDestroy;
                    StoreClose])).
Proof.
  unfold Client.lookup.
  run.
  all: intros k it Hk Hready Hload Hlist Hfin Hclose Hswarm Hstore.
  all: try congruence.
  all: one_unit.
  all: injection Hlist as <-; injection Hk as <-.
  all: try congruence.
  all: split; [reflexivity |].
  all: split; [intros s Hin; cbn [app] in Hin; scan Hin |].
  all: intros Hnone;
    match goal with
    | H : negb _ = _ |- _ => rewrite Hnone in H; cbn in H; try discriminate H
    end.
  all: rewrite Hnone; reflexivity.
Qed.

(** C3.  When the run of [list] calls [client.ensureDbLoaded] and the
    call rejects, the last thing the command does is print the message of
    the error with [console.error]; it then ends the process with code 1.
    When every collaborator answers, the command returns, nothing was
    printed with [console.error], and the process ends with code 0. *)
Theorem lookup_exit_codes env args flags :
  (forall e,
      Client.ensureDbLoaded env = Rejects e ->
      In EnsureDbLoaded (trace (Client.lookup env args flags)) ->
      (exists pre,
          trace (Client.lookup env args flags)
          = pre ++ [EnsureDbLoaded; ConsoleError (message e)])
      /\ Client.processEnd (outcome (Client.lookup env args flags))
         = Client.ExitCode 1)
  /\ (forall k it,
         Client.decode env (Some (Client.dbKey args)) = inr k ->
         Client.clientReady env = Resolves tt ->
         Client.ensureDbLoaded env = Resolves tt ->
         Client.clientList env (Client.service args)
                           (orNumber (Client.limit flags) 10) = Resolves it ->
         finish it = Resolves tt ->
         Client.clientClose env = Resolves tt ->
         Client.swarmDestroy env = Resolves tt ->
         Client.storeClose env = Resolves tt ->
         outcome (Client.lookup env args flags) = Done tt
         /\ (forall s, ~ In (ConsoleError s)
                          (trace (Client.lookup env args flags)))
         /\ Client.processEnd (outcome (Client.lookup env args flags))
            = Client.ExitCode 0).
Proof.
  split.
  - intros e He Hin.
    destruct (lookup_load_failure env args flags e He Hin) as [Hpre Ho].
    split; [exact Hpre |].
    unfold sat in Ho. now rewrite Ho.
  - intros k it Hk Hready Hload Hlist Hfin Hclose Hswarm Hstore.
    destruct (lookup_success env args flags k it Hk Hready Hload Hlist Hfin
                             Hclose Hswarm Hstore) as [Ho [Herr _]].
    split; [exact Ho |]. split; [exact Herr |]. now rewrite Ho.
Qed.

(** C3 on the sample: the database does not load. *)
Lemma lookup_exit_codes_witness :
  Client.processEnd (outcome (Client.lookup
                         (Sample.lookupEnv (Rejects (mkError "timeout")) [])
                         Sample.listArgs (Sample.listFlags None)))
  = Client.ExitCode 1.
Proof.
  refine (proj2 (proj1 (lookup_exit_codes
                          (Sample.lookupEnv (Rejects (mkError "timeout")) [])
                          Sample.listArgs (Sample.listFlags None))
                       (mkError "timeout") eq_refl _)).
  vm_compute. tauto.
Defined.

(** C9.  When [client.list] yields no entry, with every collaborator
    answering, the command prints [None (did not find any instances)]
    right after the call, then closes the client, destroys the swarm and
    closes the store, and returns. *)
Theorem lookup_none_found env args flags k it :
  Client.decode env (Some (Client.dbKey args)) = inr k ->
  Client.clientReady env = Resolves tt ->
  Client.ensureDbLoaded env = Resolves tt ->
  Client.clientList env (Client.service args)
                    (orNumber (Client.limit flags) 10) = Resolves it ->
  items it = [] ->
  finish it = Resolves tt ->
  Client.clientClose env = Resolves tt ->
  Client.swarmDestroy env = Resolves tt ->
  Client.storeClose env = Resolves tt ->
  Client.lookup env args flags =
  ([NewHyperswarm None;
    NewCorestore (orString (Client.storage flags) "autodiscovery-client");
    SwarmOnConnection;
    NewLookupClient k "autodiscovery-lookup";
    ClientReady;
    ConsoleLog "Loading database...";
    EnsureDbLoaded;
    ConsoleLog ("Autobase Discovery database version: "
                ++ showNat (Client.coreLength env));
    ConsoleLog ("Available instances for service '"
                ++ Client.service args ++ "':");
    ClientList (Client.service args) (orNumber (Client.limit flags) 10);
    ConsoleInfo "None (did not find any instances)";
    ClientClose;
    SwarmDestroy;
    StoreClose],
   Done tt).
Proof.
  intros Hk Hready Hload Hlist Hnone Hfin Hclose Hswarm Hstore.
  destruct (lookup_success env args flags k it Hk Hready Hload Hlist Hfin
                           Hclose Hswarm Hstore) as [Ho [_ Ht]].
  specialize (Ht Hnone). unfold trace, outcome in Ho, Ht.
  destruct (Client.lookup env args flags) as [t o].
  cbn [fst snd] in Ho, Ht. now subst.
Qed.

(** C9 on the sample. *)
Lemma lookup_none_found_witness :
  outcome (Client.lookup (Sample.lookupEnv (Resolves tt) [])
                         Sample.listArgs (Sample.listFlags None))
  = Done tt.
Proof.
  rewrite (lookup_none_found (Sample.lookupEnv (Resolves tt) [])
             Sample.listArgs (Sample.listFlags None)
             (list_byte_of_string "dbk1") (mkIter [] (Resolves tt))
             eq_refl eq_refl eq_refl eq_refl eq_refl eq_refl eq_refl eq_refl
             eq_refl).
  reflexivity.
Defined.

(* ===================================================================== *)
(** * The client: [delete] and [register] *)
(* ===================================================================== *)

Ltac one_shot_leaf :=
  unfold oneShot; cbn [app filter isSession isRequest length];
  repeat lazymatch goal with |- _ /\ _ => split end;
  [ auto with arith
  | auto with arith
  | let e := fresh "e" in
    let Hin := fresh "Hin" in
    let Hs := fresh "Hs" in
    intros e Hin Hs; cbn [In] in Hin;
    repeat (destruct Hin as [<- | Hin]; try discriminate Hs);
    try contradiction;
    eexists _, _; (split; [eassumption | split; [eassumption | auto]])
  | intros; first [reflexivity | discriminate]
  | intros; first [discriminate | congruence]
  | intros; first [discriminate | congruence]
  | intros; first [reflexivity | discriminate] ].

Lemma deleteCmd_one_shot env args :
  sat (Client.deleteCmd env args)
      (oneShot env (Client.delRpcKey args) (Client.delAccessSeed args)).
Proof.
  unfold Client.deleteCmd, Client.goodbyeExit, Client.goodbyeHandler.
  run.
  all: one_shot_leaf.
Qed.

Lemma registerCmd_one_shot env args :
  sat (Client.registerCmd env args)
      (oneShot env (Client.regRpcKey args) (Client.regAccessSeed args)).
Proof.
  unfold Client.registerCmd, Client.goodbyeExit, Client.goodbyeHandler.
  run.
  all: one_shot_leaf.
Qed.

Ltac in_list :=
  cbn [In app]; repeat first [ left; reflexivity | right ].

(** What [delete] does once its keys decode. *)
Lemma deleteCmd_does env args :
  sat (Client.deleteCmd env args)
      (fun t o =>
         forall rpcKey seed pk,
           Client.decodeKey env (Some (Client.delRpcKey args)) = inr rpcKey ->
           Client.decodeKey env (Some (Client.delAccessSeed args)) = inr seed ->
           Client.decodeKey env (Some (Client.delPublicKey args)) = inr pk ->
           filter isSession t = [NewDeleteClient rpcKey seed]
           /\ filter isClientReady t = [ClientReady]
           /\ (forall e, Client.ready env = Rejects e ->
                         filter isRequest t = [] /\ o = Thrown e)
           /\ (Client.ready env = Resolves tt ->
               filter isRequest t = [DeleteService pk]
               /\ (forall e, Client.request env = Rejects e -> o = Thrown e)
               /\ (Client.request env = Pending -> o = Hang)
               /\ (Client.request env = Resolves tt ->
                   In (ConsoleLog
                         ("Successfully requested to delete service "
                          ++ Client.normalizeKey env pk)) t))).
Proof.
  unfold Client.deleteCmd, Client.goodbyeExit, Client.goodbyeHandler.
  run.
  all: intros rpcKey seed pk Hrpc Hseed Hpk; try congruence.
  all: injection Hrpc as <-; injection Hseed as <-; injection Hpk as <-.
  all: split; [reflexivity | split; [reflexivity | split]].
  all: try (intros err Herr;
            first [discriminate Herr | injection Herr as <-];
            split; reflexivity).
  all: intros Hready; try discriminate Hready.
  all: split; [reflexivity | split; [| split]].
  all: try (intros err Herr;
            first [discriminate Herr | injection Herr as <-];
            reflexivity).
  all: intros Hreq; first [discriminate Hreq | reflexivity | in_list].
Qed.

(** What [register] does once its keys decode. *)
Lemma registerCmd_does env args :
  sat (Client.registerCmd env args)
      (fun t o =>
         forall rpcKey seed pk,
           Client.decodeKey env (Some (Client.regRpcKey args)) = inr rpcKey ->
           Client.decodeKey env (Some (Client.regAccessSeed args)) = inr seed ->
           Client.decodeKey env (Some (Client.regPublicKey args)) = inr pk ->
           filter isSession t = [NewRegisterClient rpcKey seed]
           /\ filter isClientReady t = [ClientReady]
           /\ (forall e, Client.ready env = Rejects e ->
                         filter isRequest t = [] /\ o = Thrown e)
           /\ (Client.ready env = Resolves tt ->
               filter isRequest t
               = [PutService pk (Client.regServiceName args)]
               /\ (forall e, Client.request env = Rejects e -> o = Thrown e)
               /\ (Client.request env = Pending -> o = Hang)
               /\ (Client.request env = Resolves tt ->
                   In (ConsoleInfo
                         ("Successfully requested to register service "
                          ++ Client.normalizeKey env pk)) t))).
Proof.
  unfold Client.registerCmd, Client.goodbyeExit, Client.goodbyeHandler.
  run.
  all: intros rpcKey seed pk Hrpc Hseed Hpk; try congruence.
  all: injection Hrpc as <-; injection Hseed as <-; injection Hpk as <-.
  all: split; [reflexivity | split; [reflexivity | split]].
  all: try (intros err Herr;
            first [discriminate Herr | injection Herr as <-];
            split; reflexivity).
  all: intros Hready; try discriminate Hready.
  all: split; [reflexivity | split; [| split]].
  all: try (intros err Herr;
            first [discriminate Herr | injection Herr as <-];
            reflexivity).
  all: intros Hreq; first [discriminate Hreq | reflexivity | in_list].
Qed.

(** C7.  A run of [delete] or [register] builds at most one client, for
    the server whose key was given and with the seed given, and makes at
    most one request on it; the command then ends as that request settles
    (it throws what the request rejects with, it waits as long as the
    request is pending), and a run that goes to its end made exactly one
    request: nothing is tried a second time.  And it does open the
    session and make the request: once the three keys decode, the run
    builds exactly one client, for the decoded key of the server and the
    decoded seed, and calls [client.ready()] exactly once; when that
    resolves it makes exactly one request, for the decoded public key (and
    the service name, for [register]), and ends as said, printing that the
    request went through when it resolved; when opening fails it makes no
    request and throws that error. *)
Theorem mutation_one_shot env dargs rargs :
  (oneShot env (Client.delRpcKey dargs) (Client.delAccessSeed dargs)
           (trace (Client.deleteCmd env dargs))
           (outcome (Client.deleteCmd env dargs))
   /\ forall rpcKey seed pk,
       Client.decodeKey env (Some (Client.delRpcKey dargs)) = inr rpcKey ->
       Client.decodeKey env (Some (Client.delAccessSeed dargs)) = inr seed ->
       Client.decodeKey env (Some (Client.delPublicKey dargs)) = inr pk ->
       filter isSession (trace (Client.deleteCmd env dargs))
       = [NewDeleteClient rpcKey seed]
       /\ filter isClientReady (trace (Client.deleteCmd env dargs))
          = [ClientReady]
       /\ (forall e,
              Client.ready env = Rejects e ->
              filter isRequest (trace (Client.deleteCmd env dargs)) = []
              /\ outcome (Client.deleteCmd env dargs) = Thrown e)
       /\ (Client.ready env = Resolves tt ->
           filter isRequest (trace (Client.deleteCmd env dargs))
           = [DeleteService pk]
           /\ (forall e,
                  Client.request env = Rejects e ->
                  outcome (Client.deleteCmd env dargs) = Thrown e)
           /\ (Client.request env = Pending ->
               outcome (Client.deleteCmd env dargs) = Hang)
           /\ (Client.request env = Resolves tt ->
               In (ConsoleLog ("Successfully requested to delete service "
                               ++ Client.normalizeKey env pk))
                  (trace (Client.deleteCmd env dargs)))))
  /\ (oneShot env (Client.regRpcKey rargs) (Client.regAccessSeed rargs)
              (trace (Client.registerCmd env rargs))
              (outcome (Client.registerCmd env rargs))
      /\ forall rpcKey seed pk,
          Client.decodeKey env (Some (Client.regRpcKey rargs)) = inr rpcKey ->
          Client.decodeKey env (Some (Client.regAccessSeed rargs)) = inr seed ->
          Client.decodeKey env (Some (Client.regPublicKey rargs)) = inr pk ->
          filter isSession (trace (Client.registerCmd env rargs))
          = [NewRegisterClient rpcKey seed]
          /\ filter isClientReady (trace (Client.registerCmd env rargs))
             = [ClientReady]
          /\ (forall e,
                 Client.ready env = Rejects e ->
                 filter isRequest (trace (Client.registerCmd env rargs)) = []
                 /\ outcome (Client.registerCmd env rargs) = Thrown e)
          /\ (Client.ready env = Resolves tt ->
              filter isRequest (trace (Client.registerCmd env rargs))
              = [PutService pk (Client.regServiceName rargs)]
              /\ (forall e,
                     Client.request env = Rejects e ->
                     outcome (Client.registerCmd env rargs) = Thrown e)
              /\ (Client.request env = Pending ->
                  outcome (Client.registerCmd env rargs) = Hang)
              /\ (Client.request env = Resolves tt ->
                  In (ConsoleInfo
                        ("Successfully requested to register service "
                         ++ Client.normalizeKey env pk))
                     (trace (Client.registerCmd env rargs))))).
Proof.
  split; split.
  - apply deleteCmd_one_shot.
  - exact (deleteCmd_does env dargs).
  - apply registerCmd_one_shot.
  - exact (registerCmd_does env rargs).
Qed.

(** C7 on the sample: [register] builds one client and makes one request,
    and [delete], whose request is rejected here, makes its one request
    and throws the error. *)
Lemma mutation_one_shot_witness :
  (filter isSession
          (trace (Client.registerCmd
                    (Sample.rpcEnv (Rejects (mkError "RateLimited")))
                    Sample.registerArgs))
   = [NewRegisterClient (list_byte_of_string "rpc1")
                        (list_byte_of_string "seed")]
   /\ filter isRequest
             (trace (Client.registerCmd
                       (Sample.rpcEnv (Rejects (mkError "RateLimited")))
                       Sample.registerArgs))
      = [PutService (list_byte_of_string "keyA") "search"])
  /\ (filter isRequest
             (trace (Client.deleteCmd
                       (Sample.rpcEnv (Rejects (mkError "RateLimited")))
                       Sample.deleteArgs))
      = [DeleteService (list_byte_of_string "keyA")]
      /\ outcome (Client.deleteCmd
                    (Sample.rpcEnv (Rejects (mkError "RateLimited")))
                    Sample.deleteArgs)
         = Thrown (mkError "RateLimited")).
Proof.
  destruct (mutation_one_shot (Sample.rpcEnv (Rejects (mkError "RateLimited")))
                              Sample.deleteArgs Sample.registerArgs)
    as [[_ Hdel] [_ Hreg]].
  destruct (Hreg (list_byte_of_string "rpc1") (list_byte_of_string "seed")
                 (list_byte_of_string "keyA") eq_refl eq_refl eq_refl)
    as [Hsession [_ [_ Hrequest]]].
  destruct (Hdel (list_byte_of_string "rpc1") (list_byte_of_string "seed")
                 (list_byte_of_string "keyA") eq_refl eq_refl eq_refl)
    as [_ [_ [_ Hdrequest]]].
  destruct (Hrequest eq_refl) as [Hone _].
  destruct (Hdrequest eq_refl) as [Hdone [Hthrow _]].
  split; [split; [exact Hsession | exact Hone] |].
  split; [exact Hdone | exact (Hthrow (mkError "RateLimited") eq_refl)].
Defined.

Lemma sessionRequest_invalid allowed clientKey answer :
  publicKey clientKey <> allowed ->
  Client.sessionRequest allowed clientKey answer = Pending.
Proof.
  intros H. unfold Client.sessionRequest, buffer_eqb.
  destruct (list_eq_dec Byte.byte_eq_dec (publicKey clientKey) allowed);
    [contradiction | reflexivity].
Qed.

Ltac prefix_leaf := cbn [app]; eexists; reflexivity.

(** [delete] up to the request. *)
Lemma deleteCmd_until_request env args :
  sat (Client.deleteCmd env args)
      (fun t o =>
         forall rpcKey seed pk,
           Client.decodeKey env (Some (Client.delRpcKey args)) = inr rpcKey ->
           Client.decodeKey env (Some (Client.delAccessSeed args)) = inr seed ->
           Client.decodeKey env (Some (Client.delPublicKey args)) = inr pk ->
           Client.ready env = Resolves tt ->
           (exists rest,
               t = [NewHyperDHT;
                    NewDeleteClient rpcKey seed;
                    GoodbyeRegister;
                    ConsoleInfo "Opening connection... (press ctrl-c to cancel)";
                    ClientReady;
                    ConsoleLog
                      ("Sending delete request to RPC server "
                       ++ Client.normalizeKey env rpcKey
                       ++ ", using public key "
                       ++ Client.normalizeKey env
                            (publicKey (Client.keyPairOf env seed))
                       ++ "...");
                    DeleteService pk] ++ rest)
           /\ (Client.request env = Pending ->
               (t, o) =
               ([NewHyperDHT;
                 NewDeleteClient rpcKey seed;
                 GoodbyeRegister;
                 ConsoleInfo "Opening connection... (press ctrl-c to cancel)";
                 ClientReady;
                 ConsoleLog
                   ("Sending delete request to RPC server "
                    ++ Client.normalizeKey env rpcKey
                    ++ ", using public key "
                    ++ Client.normalizeKey env
                         (publicKey (Client.keyPairOf env seed))
                    ++ "...");
                 DeleteService pk],
                Hang))).
Proof.
  unfold Client.deleteCmd, Client.goodbyeExit, Client.goodbyeHandler.
  run.
  all: intros rpcKey seed pk Hrpc Hseed Hpk Hready; try congruence.
  all: injection Hrpc as <-; injection Hseed as <-; injection Hpk as <-.
  all: (split; [prefix_leaf | first [discriminate | reflexivity]]).
Qed.

(** [register] up to the request. *)
Lemma registerCmd_until_request env args :
  sat (Client.registerCmd env args)
      (fun t o =>
         forall rpcKey seed pk,
           Client.decodeKey env (Some (Client.regRpcKey args)) = inr rpcKey ->
           Client.decodeKey env (Some (Client.regAccessSeed args)) = inr seed ->
           Client.decodeKey env (Some (Client.regPublicKey args)) = inr pk ->
           Client.ready env = Resolves tt ->
           (exists rest,
               t = [NewHyperDHT;
                    NewRegisterClient rpcKey seed;
                    GoodbyeRegister;
                    ConsoleInfo "Opening connection... (press ctrl-c to cancel)";
                    ClientReady;
                    ConsoleInfo
                      ("Sending register request to RPC server "
                       ++ Client.normalizeKey env rpcKey
                       ++ ", using public key "
                       ++ Client.normalizeKey env
                            (publicKey (Client.keyPairOf env seed))
                       ++ "...");
                    PutService pk (Client.regServiceName args)] ++ rest)
           /\ (Client.request env = Pending ->
               (t, o) =
               ([NewHyperDHT;
                 NewRegisterClient rpcKey seed;
                 GoodbyeRegister;
                 ConsoleInfo "Opening connection... (press ctrl-c to cancel)";
                 ClientReady;
                 ConsoleInfo
                   ("Sending register request to RPC server "
                    ++ Client.normalizeKey env rpcKey
                    ++ ", using public key "
                    ++ Client.normalizeKey env
                         (publicKey (Client.keyPairOf env seed))
                    ++ "...");
                 PutService pk (Client.regServiceName args)],
                Hang))).
Proof.
  unfold Client.registerCmd, Client.goodbyeExit, Client.goodbyeHandler.
  run.
  all: intros rpcKey seed pk Hrpc Hseed Hpk Hready; try congruence.
  all: injection Hrpc as <-; injection Hseed as <-; injection Hpk as <-.
  all: (split; [prefix_leaf | first [discriminate | reflexivity]]).
Qed.

(** C4.  The session is the one of the spec ([Client.sessionRequest]):
    the server lets in the key pair of one seed only.  When the seed given
    to [delete] or [register] is another one, and the command gets as far
    as its request, the command prints its two progress lines, makes the
    request and waits for ever: it prints no error and does not exit.
    What it has printed and called by then is the beginning of what it
    prints and calls when the server lets the seed in, whatever the server
    then answers: nothing in it tells that the seed was refused. *)
Theorem invalid_seed_hangs_silently env allowed answer dargs rargs :
  (forall rpcKey seed pk,
      Client.decodeKey env (Some (Client.delRpcKey dargs)) = inr rpcKey ->
      Client.decodeKey env (Some (Client.delAccessSeed dargs)) = inr seed ->
      Client.decodeKey env (Some (Client.delPublicKey dargs)) = inr pk ->
      Client.ready env = Resolves tt ->
      Client.request env
      = Client.sessionRequest allowed (Client.keyPairOf env seed) answer ->
      publicKey (Client.keyPairOf env seed) <> allowed ->
      let shown :=
        [NewHyperDHT;
         NewDeleteClient rpcKey seed;
         GoodbyeRegister;
         ConsoleInfo "Opening connection... (press ctrl-c to cancel)";
         ClientReady;
         ConsoleLog
           ("Sending delete request to RPC server "
            ++ Client.normalizeKey env rpcKey
            ++ ", using public key "
            ++ Client.normalizeKey env (publicKey (Client.keyPairOf env seed))
            ++ "...");
         DeleteService pk] in
      Client.deleteCmd env dargs = (shown, Hang)
      /\ Client.processEnd (outcome (Client.deleteCmd env dargs))
         = Client.StaysAlive
      /\ (forall r, exists rest,
             trace (Client.deleteCmd (answering env r) dargs) = shown ++ rest))
  /\ (forall rpcKey seed pk,
         Client.decodeKey env (Some (Client.regRpcKey rargs)) = inr rpcKey ->
         Client.decodeKey env (Some (Client.regAccessSeed rargs)) = inr seed ->
         Client.decodeKey env (Some (Client.regPublicKey rargs)) = inr pk ->
         Client.ready env = Resolves tt ->
         Client.request env
         = Client.sessionRequest allowed (Client.keyPairOf env seed) answer ->
         publicKey (Client.keyPairOf env seed) <> allowed ->
         let shown :=
           [NewHyperDHT;
            NewRegisterClient rpcKey seed;
            GoodbyeRegister;
            ConsoleInfo "Opening connection... (press ctrl-c to cancel)";
            ClientReady;
            ConsoleInfo
              ("Sending register request to RPC server "
               ++ Client.normalizeKey env rpcKey
               ++ ", using public key "
               ++ Client.normalizeKey env
                    (publicKey (Client.keyPairOf env seed))
               ++ "...");
            PutService pk (Client.regServiceName rargs)] in
         Client.registerCmd env rargs = (shown, Hang)
         /\ Client.processEnd (outcome (Client.registerCmd env rargs))
            = Client.StaysAlive
         /\ (forall r, exists rest,
                trace (Client.registerCmd (answering env r) rargs)
                = shown ++ rest)).
Proof.
  split.
  - intros rpcKey seed pk Hrpc Hseed Hpk Hready Hreq Hwrong shown.
    rewrite (sessionRequest_invalid _ _ answer Hwrong) in Hreq.
    destruct (deleteCmd_until_request env dargs rpcKey seed pk
                                      Hrpc Hseed Hpk Hready) as [_ Hhang].
    specialize (Hhang Hreq). unfold trace, outcome in Hhang.
    rewrite <- surjective_pairing in Hhang.
    split; [exact Hhang |]. split; [now rewrite Hhang |].
    intros r.
    exact (proj1 (deleteCmd_until_request (answering env r) dargs rpcKey seed pk
                                          Hrpc Hseed Hpk Hready)).
  - intros rpcKey seed pk Hrpc Hseed Hpk Hready Hreq Hwrong shown.
    rewrite (sessionRequest_invalid _ _ answer Hwrong) in Hreq.
    destruct (registerCmd_until_request env rargs rpcKey seed pk
                                        Hrpc Hseed Hpk Hready) as [_ Hhang].
    specialize (Hhang Hreq). unfold trace, outcome in Hhang.
    rewrite <- surjective_pairing in Hhang.
    split; [exact Hhang |]. split; [now rewrite Hhang |].
    intros r.
    exact (proj1 (registerCmd_until_request (answering env r) rargs
                                            rpcKey seed pk
                                            Hrpc Hseed Hpk Hready)).
Qed.

(** C4 on the sample: the server lets in [keyB], the seed given derives
    another key, and [register] waits for ever. *)
Lemma invalid_seed_hangs_silently_witness :
  outcome (Client.registerCmd
             (Sample.rpcEnv
                (Client.sessionRequest
                   Sample.keyB
                   (Sample.keyPairOfSeed (list_byte_of_string "seed"))
                   (Resolves tt)))
             Sample.registerArgs)
  = Hang.
Proof.
  destruct (invalid_seed_hangs_silently
              (Sample.rpcEnv
                 (Client.sessionRequest
                    Sample.keyB
                    (Sample.keyPairOfSeed (list_byte_of_string "seed"))
                    (Resolves tt)))
              Sample.keyB (Resolves tt)
              Sample.deleteArgs Sample.registerArgs) as [_ H].
  destruct (H (list_byte_of_string "rpc1") (list_byte_of_string "seed")
              (list_byte_of_string "keyA")
              eq_refl eq_refl eq_refl eq_refl eq_refl) as [Hrun _].
  - vm_compute. discriminate.
  - now rewrite Hrun.
Defined.

(* ===================================================================== *)
(** * More on [list] *)
(* ===================================================================== *)

Lemma orString_takenFrom f d : takenFrom f d (orString f d).
Proof.
  unfold takenFrom, orString.
  destruct f as [[| c s] |]; cbn; repeat split; intros; congruence.
Qed.

Lemma filter_lines (p : Event -> bool) (f : Client.Entry -> string)
      (xs : list Client.Entry) :
  (forall s, p (ConsoleInfo s) = true) ->
  filter p (map (fun x => ConsoleInfo (f x)) xs)
  = map (fun x => ConsoleInfo (f x)) xs.
Proof.
  intros Hp. induction xs as [| x xs IH]; cbn; [reflexivity |].
  now rewrite Hp, IH.
Qed.

Lemma filter_lines_none (p : Event -> bool) (f : Client.Entry -> string)
      (xs : list Client.Entry) :
  (forall s, p (ConsoleInfo s) = false) ->
  filter p (map (fun x => ConsoleInfo (f x)) xs) = [].
Proof.
  intros Hp. induction xs as [| x xs IH]; cbn; [reflexivity |].
  now rewrite Hp.
Qed.

(** What [list] prints with [console.info], once [client.list] has
    answered. *)
Lemma lookup_info_lines env args flags :
  sat (Client.lookup env args flags)
      (fun t o =>
         forall it,
           Client.clientList env (Client.service args)
                             (orNumber (Client.limit flags) 10) = Resolves it ->
           In (ClientList (Client.service args)
                          (orNumber (Client.limit flags) 10)) t ->
           match finish it with
           | Resolves _ =>
               filter isConsoleInfo t =
               match items it with
               | [] => [ConsoleInfo "None (did not find any instances)"]
               | _ :: _ => map (entryLine env) (items it)
               end
           | Rejects e =>
               filter isConsoleInfo t = map (entryLine env) (items it)
               /\ o = Thrown e
           | Pending =>
               filter isConsoleInfo t = map (entryLine env) (items it)
               /\ o = Hang
           end).
Proof.
  unfold Client.lookup.
  run.
  all: intros it Hlist Hin; try discriminate Hlist.
  all: try (cbn [app] in Hin; scan Hin; fail).
  all: injection Hlist as <-.
  all: match goal with H : finish _ = _ |- _ => rewrite H end.
  all: cbn [app filter isConsoleInfo].
  all: rewrite ?filter_app, ?(filter_lines isConsoleInfo) by reflexivity.
  all: cbn [app filter isConsoleInfo]; rewrite ?app_nil_r.
  all: try (split; reflexivity).
  all: match goal with
       | H : negb _ = _ |- context [items ?i] =>
           destruct (items i); cbn in H; try discriminate H
       end.
  all: reflexivity.
Qed.

(** Cleaning up happens only after a listing that went through. *)
Lemma lookup_clean_up env args flags :
  sat (Client.lookup env args flags)
      (fun t o =>
         forall evt,
           In evt t -> isCleanUp evt = true ->
           exists it,
             Client.ensureDbLoaded env = Resolves tt
             /\ Client.clientList env (Client.service args)
                                  (orNumber (Client.limit flags) 10)
                = Resolves it
             /\ finish it = Resolves tt).
Proof.
  unfold Client.lookup.
  run.
  all: intros evt Hin Hclean; cbn [app] in Hin; scan Hin.
  all: subst evt; try discriminate Hclean.
  all: one_unit; eexists; repeat split; eassumption.
Qed.

(** [list] ends the process itself only when the database does not load. *)
Lemma lookup_exit_only_on_load_failure env args flags :
  sat (Client.lookup env args flags)
      (fun t o =>
         forall c,
           o = Exited c ->
           c = 1%Z
           /\ exists e,
               Client.ensureDbLoaded env = Rejects e
               /\ exists pre, t = pre ++ [EnsureDbLoaded; ConsoleError (message e)]).
Proof.
  unfold Client.lookup.
  run.
  all: intros c Hc; try discriminate Hc.
  injection Hc as <-. split; [reflexivity |].
  eexists; split; [reflexivity | find_suffix2].
Qed.

(** [list] calls [client.list] at most once. *)
Lemma lookup_lists_once env args flags :
  sat (Client.lookup env args flags)
      (fun t o =>
         length (filter isListCall t) <= 1
         /\ (o = Done tt ->
             filter isListCall t
             = [ClientList (Client.service args)
                           (orNumber (Client.limit flags) 10)])).
Proof.
  unfold Client.lookup.
  run.
  all: cbn [app filter isListCall].
  all: rewrite ?filter_app, ?(filter_lines_none isListCall) by reflexivity.
  all: cbn [app filter isListCall length].
  all: split; [auto with arith | first [discriminate | reflexivity]].
Qed.

(** X1.  In a run of [list] that gets to call [client.list], when the
    sequence of entries ends normally the lines printed with
    [console.info] are one line per entry, in the order yielded, and the
    single line [None (did not find any instances)] exactly when there was
    no entry. *)
Theorem lookup_prints_entries env args flags it :
  Client.clientList env (Client.service args)
                    (orNumber (Client.limit flags) 10) = Resolves it ->
  finish it = Resolves tt ->
  In (ClientList (Client.service args) (orNumber (Client.limit flags) 10))
     (trace (Client.lookup env args flags)) ->
  filter isConsoleInfo (trace (Client.lookup env args flags)) =
  match items it with
  | [] => [ConsoleInfo "None (did not find any instances)"]
  | _ :: _ =>
      map (fun entry =>
             ConsoleInfo ("  - " ++ Client.normalize env
                                      (Client.entryPublicKey entry)))
          (items it)
  end.
Proof.
  intros Hlist Hfin Hin.
  pose proof (lookup_info_lines env args flags it Hlist Hin) as H.
  rewrite Hfin in H. exact H.
Qed.

Lemma lookup_prints_entries_witness :
  filter isConsoleInfo
         (trace (Client.lookup
                   (MoreSamples.iterEnv [Sample.entryA; MoreSamples.entryB]
                                        (Resolves tt))
                   Sample.listArgs (Sample.listFlags None)))
  = [ConsoleInfo "  - keyA"; ConsoleInfo "  - keyB"].
Proof.
  refine (lookup_prints_entries
            (MoreSamples.iterEnv [Sample.entryA; MoreSamples.entryB]
                                 (Resolves tt))
            Sample.listArgs (Sample.listFlags None)
            (mkIter [Sample.entryA; MoreSamples.entryB] (Resolves tt))
            eq_refl eq_refl _).
  vm_compute. tauto.
Defined.

(** X2.  When the sequence of entries fails part way, the entries yielded
    before the failure have been printed, no [None] line is printed, the
    command throws the error of the sequence, and it closes neither the
    client nor the swarm nor the store. *)
Theorem lookup_iteration_failure env args flags it e :
  Client.clientList env (Client.service args)
                    (orNumber (Client.limit flags) 10) = Resolves it ->
  finish it = Rejects e ->
  In (ClientList (Client.service args) (orNumber (Client.limit flags) 10))
     (trace (Client.lookup env args flags)) ->
  outcome (Client.lookup env args flags) = Thrown e
  /\ filter isConsoleInfo (trace (Client.lookup env args flags))
     = map (fun entry =>
              ConsoleInfo ("  - " ++ Client.normalize env
                                       (Client.entryPublicKey entry)))
           (items it)
  /\ filter isCleanUp (trace (Client.lookup env args flags)) = [].
Proof.
  intros Hlist Hfin Hin.
  pose proof (lookup_info_lines env args flags it Hlist Hin) as H.
  rewrite Hfin in H. destruct H as [Hlines Ho].
  split; [exact Ho |]. split; [exact Hlines |].
  apply filter_none. apply Forall_forall. intros evt Hevt.
  destruct (isCleanUp evt) eqn:Hclean; [| reflexivity].
  destruct (lookup_clean_up env args flags evt Hevt Hclean)
    as [it' [_ [Hlist' Hfin']]].
  congruence.
Qed.

Lemma lookup_iteration_failure_witness :
  outcome (Client.lookup
             (MoreSamples.iterEnv [Sample.entryA] (Rejects (mkError "closed")))
             Sample.listArgs (Sample.listFlags None))
  = Thrown (mkError "closed").
Proof.
  refine (proj1 (lookup_iteration_failure
                   (MoreSamples.iterEnv [Sample.entryA]
                                        (Rejects (mkError "closed")))
                   Sample.listArgs (Sample.listFlags None)
                   (mkIter [Sample.entryA] (Rejects (mkError "closed")))
                   (mkError "closed") eq_refl eq_refl _)).
  vm_compute. tauto.
Defined.

(** X3.  [list] closes the client, destroys the swarm and closes the store
    only after a listing that went through: a call of one of the three is
    in the trace only when the database loaded and the sequence of entries
    ended normally.  When loading or listing fails, the command ends with
    all three left open. *)
Theorem lookup_cleans_up_only_after_listing env args flags evt :
  In evt (trace (Client.lookup env args flags)) ->
  isCleanUp evt = true ->
  exists it,
    Client.ensureDbLoaded env = Resolves tt
    /\ Client.clientList env (Client.service args)
                         (orNumber (Client.limit flags) 10) = Resolves it
    /\ finish it = Resolves tt.
Proof. exact (lookup_clean_up env args flags evt). Qed.

Lemma lookup_cleans_up_only_after_listing_witness :
  exists it,
    Client.ensureDbLoaded (Sample.lookupEnv (Resolves tt) [Sample.entryA])
    = Resolves tt
    /\ Client.clientList (Sample.lookupEnv (Resolves tt) [Sample.entryA])
                         "search" (VNum (Num 10)) = Resolves it
    /\ finish it = Resolves tt.
Proof.
  refine (lookup_cleans_up_only_after_listing
            (Sample.lookupEnv (Resolves tt) [Sample.entryA])
            Sample.listArgs (Sample.listFlags None) StoreClose _ eq_refl).
  vm_compute. tauto.
Defined.

(** X4.  [list] ends the process by itself in one case only: an exit code
    is set by the command only when [client.ensureDbLoaded] rejected, the
    code is then 1, and the message of the error was the last thing
    printed. *)
Theorem lookup_exits_only_on_load_failure env args flags c :
  outcome (Client.lookup env args flags) = Exited c ->
  c = 1%Z
  /\ exists e,
      Client.ensureDbLoaded env = Rejects e
      /\ exists pre,
          trace (Client.lookup env args flags)
          = pre ++ [EnsureDbLoaded; ConsoleError (message e)].
Proof. exact (lookup_exit_only_on_load_failure env args flags c). Qed.

Lemma lookup_exits_only_on_load_failure_witness :
  1%Z = 1%Z
  /\ exists e,
      Client.ensureDbLoaded
        (Sample.lookupEnv (Rejects (mkError "timeout")) []) = Rejects e
      /\ exists pre,
          trace (Client.lookup
                   (Sample.lookupEnv (Rejects (mkError "timeout")) [])
                   Sample.listArgs (Sample.listFlags None))
          = pre ++ [EnsureDbLoaded; ConsoleError (message e)].
Proof.
  exact (lookup_exits_only_on_load_failure
           (Sample.lookupEnv (Rejects (mkError "timeout")) [])
           Sample.listArgs (Sample.listFlags None) 1%Z eq_refl).
Defined.

Lemma filter_nil_forall (p : Event -> bool) (l : Trace) :
  filter p l = [] -> Forall (fun e => p e = false) l.
Proof.
  induction l as [| x l IH]; cbn; [constructor |].
  destruct (p x) eqn:Hx; [discriminate |]. intros H. constructor; auto.
Qed.

Lemma filter_weave_handlers (p : Event -> bool) (sched : list bool) :
  forall main cb,
    filter p main = [] ->
    filter p (weave sched main cb) = filter p cb.
Proof.
  induction sched as [| [|] sched IH]; intros main cb Hmain; cbn [weave].
  - now rewrite filter_app, Hmain.
  - destruct main as [| x main]; [reflexivity |].
    cbn [filter] in *. destruct (p x); [discriminate |]. now apply IH.
  - destruct cb as [| y cb]; [exact Hmain |].
    cbn [filter]. destruct (p y); [f_equal |]; now apply IH.
Qed.

(** [list] itself neither replicates the store nor prints with
    [console.debug]. *)
Lemma lookup_leaves_handlers_alone env args flags :
  sat (Client.lookup env args flags)
      (fun t o => filter isReplicate t = [] /\ filter isConsoleDebug t = []).
Proof.
  unfold Client.lookup.
  run.
  all: cbn [app filter isReplicate isConsoleDebug].
  all: rewrite ?filter_app, ?(filter_lines_none isReplicate),
         ?(filter_lines_none isConsoleDebug) by reflexivity.
  all: split; reflexivity.
Qed.

Lemma lookupHandlers_replicate env debug evs :
  filter isReplicate (Client.lookupHandlers env debug evs)
  = map (fun _ => StoreReplicate) (filter isConnected evs).
Proof.
  unfold Client.lookupHandlers.
  induction evs as [| [k | k] evs IH]; cbn [flat_map filter isConnected map].
  - reflexivity.
  - rewrite filter_app, IH. unfold Client.lookupOnConnection.
    destruct debug; reflexivity.
  - rewrite filter_app, IH. unfold Client.lookupOnClose.
    destruct debug; reflexivity.
Qed.

Lemma lookupHandlers_silent env evs :
  filter isConsoleDebug (Client.lookupHandlers env false evs) = [].
Proof.
  unfold Client.lookupHandlers.
  induction evs as [| [k | k] evs IH]; cbn [flat_map]; [reflexivity | |];
    now rewrite filter_app, IH.
Qed.

(** X5.  In every execution of [list], whatever the interleaving, the
    store is replicated over each connection the swarm opens, once per
    connection and nowhere else, in debug mode or not; without [--debug]
    nothing is printed with [console.debug]. *)
Theorem lookup_replicates_every_connection env args flags evs sched :
  filter isReplicate (Client.lookupExecution env args flags evs sched)
  = map (fun _ => StoreReplicate) (filter isConnected evs)
  /\ (Client.debug flags = false ->
      filter isConsoleDebug (Client.lookupExecution env args flags evs sched)
      = []).
Proof.
  destruct (lookup_leaves_handlers_alone env args flags) as [Hrepl Hdebug].
  unfold Client.lookupExecution. split.
  - rewrite (filter_weave_handlers _ _ _ _ Hrepl).
    apply lookupHandlers_replicate.
  - intros Hoff. rewrite Hoff.
    rewrite (filter_weave_handlers _ _ _ _ Hdebug).
    apply lookupHandlers_silent.
Qed.

Lemma lookup_replicates_every_connection_witness :
  filter isConsoleDebug
         (Client.lookupExecution
            (Sample.lookupEnv (Resolves tt) [Sample.entryA]) Sample.listArgs
            {| Client.storage := None; Client.limit := None;
               Client.debug := false |}
            [Client.Connected Sample.keyB; Client.Closed Sample.keyB]
            Sample.sched)
  = [].
Proof.
  exact (proj2 (lookup_replicates_every_connection
                  (Sample.lookupEnv (Resolves tt) [Sample.entryA])
                  Sample.listArgs
                  {| Client.storage := None; Client.limit := None;
                     Client.debug := false |}
                  [Client.Connected Sample.keyB; Client.Closed Sample.keyB]
                  Sample.sched) eq_refl).
Defined.

(** X6.  [list] calls [client.list] at most once, and exactly once, for
    the service and with the limit of the command line, in a run that
    returns: the command reads one page and does not follow a cursor. *)
Theorem lookup_lists_at_most_once env args flags evs sched :
  length (filter isListCall (Client.lookupExecution env args flags evs sched))
  <= 1
  /\ (outcome (Client.lookup env args flags) = Done tt ->
      filter isListCall (Client.lookupExecution env args flags evs sched)
      = [ClientList (Client.service args)
                    (orNumber (Client.limit flags) 10)]).
Proof.
  destruct (lookup_lists_once env args flags) as [Hle Hdone].
  unfold Client.lookupExecution.
  rewrite filter_weave by (apply lookupHandlers_quiet; reflexivity).
  split; [exact Hle | exact Hdone].
Qed.

Lemma lookup_lists_at_most_once_witness :
  filter isListCall (Sample.listExecution (Some "5"))
  = [ClientList "search" (VStr "5")].
Proof.
  exact (proj2 (lookup_lists_at_most_once
                  (Sample.lookupEnv (Resolves tt) [Sample.entryA])
                  Sample.listArgs (Sample.listFlags (Some "5"))
                  [Client.Connected Sample.keyB] Sample.sched) eq_refl).
Defined.

(** X7.  When the key of the database does not decode, [list] throws the
    error of the decoder before it creates the swarm, the store or the
    client: nothing is opened and nothing is printed. *)
Theorem lookup_rejects_malformed_key env args flags e :
  Client.decode env (Some (Client.dbKey args)) = inl e ->
  Client.lookup env args flags = ([], Thrown e).
Proof.
  intros H. unfold Client.lookup. rewrite H. reflexivity.
Qed.

Lemma lookup_rejects_malformed_key_witness :
  Client.lookup (Sample.lookupEnv (Resolves tt) []) MoreSamples.badListArgs
                (Sample.listFlags None)
  = ([], Thrown (mkError "Invalid Hypercore key")).
Proof.
  exact (lookup_rejects_malformed_key
           (Sample.lookupEnv (Resolves tt) []) MoreSamples.badListArgs
           (Sample.listFlags None) (mkError "Invalid Hypercore key") eq_refl).
Defined.




(* ===================================================================== *)
(** * More on [delete] and [register] *)
(* ===================================================================== *)

(** X9.  [delete] and [register] decode the key of the server, the seed
    and the public key, in this order, before anything else: when one of
    them does not decode, the command throws the error of the first that
    fails, and no DHT node or client was created and nothing was
    printed. *)
Theorem mutation_rejects_malformed_keys env dargs rargs :
  (forall e,
      Client.decodeKey env (Some (Client.delRpcKey dargs)) = inl e ->
      Client.deleteCmd env dargs = ([], Thrown e))
  /\ (forall k e,
         Client.decodeKey env (Some (Client.delRpcKey dargs)) = inr k ->
         Client.decodeKey env (Some (Client.delAccessSeed dargs)) = inl e ->
         Client.deleteCmd env dargs = ([], Thrown e))
  /\ (forall k s e,
         Client.decodeKey env (Some (Client.delRpcKey dargs)) = inr k ->
         Client.decodeKey env (Some (Client.delAccessSeed dargs)) = inr s ->
         Client.decodeKey env (Some (Client.delPublicKey dargs)) = inl e ->
         Client.deleteCmd env dargs = ([], Thrown e))
  /\ (forall e,
         Client.decodeKey env (Some (Client.regRpcKey rargs)) = inl e ->
         Client.registerCmd env rargs = ([], Thrown e))
  /\ (forall k e,
         Client.decodeKey env (Some (Client.regRpcKey rargs)) = inr k ->
         Client.decodeKey env (Some (Client.regAccessSeed rargs)) = inl e ->
         Client.registerCmd env rargs = ([], Thrown e))
  /\ (forall k s e,
         Client.decodeKey env (Some (Client.regRpcKey rargs)) = inr k ->
         Client.decodeKey env (Some (Client.regAccessSeed rargs)) = inr s ->
         Client.decodeKey env (Some (Client.regPublicKey rargs)) = inl e ->
         Client.registerCmd env rargs = ([], Thrown e)).
Proof.
  unfold Client.deleteCmd, Client.registerCmd.
  repeat split; intros;
    repeat match goal with
      | H : Client.decodeKey _ _ = _ |- _ => rewrite H; clear H
      end;
    reflexivity.
Qed.

Lemma mutation_rejects_malformed_keys_witness :
  Client.deleteCmd (Sample.rpcEnv (Resolves tt)) MoreSamples.badSeedArgs
  = ([], Thrown (mkError "Invalid Hypercore key")).
Proof.
  exact (proj1 (proj2 (mutation_rejects_malformed_keys
                         (Sample.rpcEnv (Resolves tt))
                         MoreSamples.badSeedArgs Sample.registerArgs))
               (list_byte_of_string "rpc1") (mkError "Invalid Hypercore key")
               eq_refl eq_refl).
Defined.

(** X10.  When its keys decode and the client, the request and the DHT
    answer, [delete] (and [register] alike) prints its two progress lines
    around [client.ready()], makes the request, prints that the request
    went through, then runs its exit handler: the client is closed when it
    is opened, the DHT is destroyed, and the process ends with code 0. *)
Theorem mutation_success env dargs rargs :
  Client.ready env = Resolves tt ->
  Client.request env = Resolves tt ->
  (Client.opened env = true -> Client.close env = Resolves tt) ->
  Client.dhtDestroy env = Resolves tt ->
  (forall rpcKey seed pk,
      Client.decodeKey env (Some (Client.delRpcKey dargs)) = inr rpcKey ->
      Client.decodeKey env (Some (Client.delAccessSeed dargs)) = inr seed ->
      Client.decodeKey env (Some (Client.delPublicKey dargs)) = inr pk ->
      Client.deleteCmd env dargs =
      ([NewHyperDHT;
        NewDeleteClient rpcKey seed;
        GoodbyeRegister;
        ConsoleInfo "Opening connection... (press ctrl-c to cancel)";
        ClientReady;
        ConsoleLog
          ("Sending delete request to RPC server "
           ++ Client.normalizeKey env rpcKey
           ++ ", using public key "
           ++ Client.normalizeKey env (publicKey (Client.keyPairOf env seed))
           ++ "...");
        DeleteService pk;
        ConsoleLog ("Successfully requested to delete service "
                    ++ Client.normalizeKey env pk);
        GoodbyeExit]
       ++ (if Client.opened env then [ClientClose] else [])
       ++ [DhtDestroy],
       Exited 0))
  /\ (forall rpcKey seed pk,
         Client.decodeKey env (Some (Client.regRpcKey rargs)) = inr rpcKey ->
         Client.decodeKey env (Some (Client.regAccessSeed rargs)) = inr seed ->
         Client.decodeKey env (Some (Client.regPublicKey rargs)) = inr pk ->
         Client.registerCmd env rargs =
         ([NewHyperDHT;
           NewRegisterClient rpcKey seed;
           GoodbyeRegister;
           ConsoleInfo "Opening connection... (press ctrl-c to cancel)";
           ClientReady;
           ConsoleInfo
             ("Sending register request to RPC server "
              ++ Client.normalizeKey env rpcKey
              ++ ", using public key "
              ++ Client.normalizeKey env
                   (publicKey (Client.keyPairOf env seed))
              ++ "...");
           PutService pk (Client.regServiceName rargs);
           ConsoleInfo ("Successfully requested to register service "
                        ++ Client.normalizeKey env pk);
           GoodbyeExit]
          ++ (if Client.opened env then [ClientClose] else [])
          ++ [DhtDestroy],
          Exited 0)).
Proof.
  intros Hready Hreq Hclose Hdht.
  unfold Client.deleteCmd, Client.registerCmd, Client.goodbyeExit,
    Client.goodbyeHandler.
  split; intros rpcKey seed pk Hrpc Hseed Hpk;
    rewrite Hrpc, Hseed, Hpk, Hready, Hreq, Hdht;
    (destruct (Client.opened env);
     [rewrite (Hclose eq_refl) | ]; reflexivity).
Qed.

Lemma mutation_success_witness :
  outcome (Client.registerCmd (Sample.rpcEnv (Resolves tt))
                              Sample.registerArgs)
  = Exited 0.
Proof.
  rewrite (proj2 (mutation_success (Sample.rpcEnv (Resolves tt))
                    Sample.deleteArgs Sample.registerArgs
                    eq_refl eq_refl (fun _ => eq_refl) eq_refl)
                 (list_byte_of_string "rpc1") (list_byte_of_string "seed")
                 (list_byte_of_string "keyA") eq_refl eq_refl eq_refl).
  reflexivity.
Defined.

(** What [delete] and [register] print. *)
Lemma deleteCmd_lines env args :
  sat (Client.deleteCmd env args)
      (fun t o =>
         ~ In (ConsoleInfo "Cancelling...") t
         /\ (forall s,
                In (ConsoleLog ("Successfully requested to delete service "
                                ++ s)) t ->
                Client.request env = Resolves tt)).
Proof.
  unfold Client.deleteCmd, Client.goodbyeExit, Client.goodbyeHandler,
    Client.openingLine.
  run.
  all: split; [intros Hin | intros s Hin]; cbn in Hin.
  all: repeat (destruct Hin as [Hin | Hin]; try discriminate Hin).
  all: try contradiction.
  all: one_unit; reflexivity.
Qed.

Lemma registerCmd_lines env args :
  sat (Client.registerCmd env args)
      (fun t o =>
         ~ In (ConsoleInfo "Cancelling...") t
         /\ (forall s,
                In (ConsoleInfo ("Successfully requested to register service "
                                 ++ s)) t ->
                Client.request env = Resolves tt)).
Proof.
  unfold Client.registerCmd, Client.goodbyeExit, Client.goodbyeHandler,
    Client.openingLine.
  run.
  all: split; [intros Hin | intros s Hin]; cbn in Hin.
  all: repeat (destruct Hin as [Hin | Hin]; try discriminate Hin).
  all: try contradiction.
  all: one_unit; reflexivity.
Qed.

(** X11.  [delete] and [register] print [Successfully requested ...] only
    when the request resolved, and a run of the command never prints
    [Cancelling...], which is left to the exit handler when the user
    interrupts. *)
Theorem mutation_reports_truthfully env dargs rargs :
  (~ In (ConsoleInfo "Cancelling...") (trace (Client.deleteCmd env dargs))
   /\ forall s,
       In (ConsoleLog ("Successfully requested to delete service " ++ s))
          (trace (Client.deleteCmd env dargs)) ->
       Client.request env = Resolves tt)
  /\ (~ In (ConsoleInfo "Cancelling...") (trace (Client.registerCmd env rargs))
      /\ forall s,
          In (ConsoleInfo ("Successfully requested to register service " ++ s))
             (trace (Client.registerCmd env rargs)) ->
          Client.request env = Resolves tt).
Proof.
  split; [apply deleteCmd_lines | apply registerCmd_lines].
Qed.

Lemma mutation_reports_truthfully_witness :
  Client.request (Sample.rpcEnv (Resolves tt)) = Resolves tt.
Proof.
  refine (proj2 (proj1 (mutation_reports_truthfully
                          (Sample.rpcEnv (Resolves tt))
                          Sample.deleteArgs Sample.registerArgs))
                "keyA" _).
  vm_compute. tauto.
Defined.

(** ** Order of events *)

Section ComesAfter.

Variables p q : Event -> bool.

Lemma comesAfter_mono (t : Trace) :
  forall seen seen',
    comesAfter p q seen t = true -> (seen = true -> seen' = true) ->
    comesAfter p q seen' t = true.
Proof.
  induction t as [| x t IH]; intros seen seen' H Himp; cbn in *;
    [reflexivity |].
  destruct (q x).
  - apply andb_prop in H as [Hs Ht]. rewrite (Himp Hs). cbn.
    apply (IH seen); auto.
  - apply (IH _ _ H). intros Hor.
    apply orb_prop in Hor as [Hs | Hx]; [rewrite (Himp Hs) | rewrite Hx];
      auto using orb_true_r.
Qed.

Lemma comesAfter_quiet (t : Trace) :
  Forall (fun e => q e = false) t ->
  forall seen, comesAfter p q seen t = true.
Proof.
  induction 1 as [| y t Hy _ IH]; intros seen; cbn; [reflexivity |].
  rewrite Hy. apply IH.
Qed.

Lemma comesAfter_app (t cb : Trace) :
  forall seen,
    comesAfter p q seen t = true ->
    Forall (fun e => q e = false) cb ->
    comesAfter p q seen (t ++ cb) = true.
Proof.
  induction t as [| x t IH]; intros seen H Hcb; cbn in *.
  - now apply comesAfter_quiet.
  - destruct (q x).
    + apply andb_prop in H as [Hs Ht]. subst seen. cbn. now apply IH.
    + now apply IH.
Qed.

(** Handlers that make no [q] call keep the order of the command. *)
Lemma comesAfter_weave (sched : list bool) :
  forall main cb seen,
    comesAfter p q seen main = true ->
    Forall (fun e => q e = false) cb ->
    comesAfter p q seen (weave sched main cb) = true.
Proof.
  induction sched as [| [|] sched IH]; intros main cb seen H Hcb;
    cbn [weave].
  - now apply comesAfter_app.
  - destruct main as [| x main]; [now apply comesAfter_quiet |].
    cbn in *. destruct (q x).
    + apply andb_prop in H as [Hs Ht]. subst seen. cbn. now apply IH.
    + now apply IH.
  - destruct cb as [| y cb]; [exact H |].
    inversion Hcb as [| ? ? Hy Hcb']; subst.
    cbn. rewrite Hy. apply IH; [| exact Hcb'].
    apply (comesAfter_mono _ seen); [exact H |].
    intros ->. reflexivity.
Qed.

Lemma comesAfter_sound (t : Trace) :
  forall seen pre x post,
    comesAfter p q seen t = true ->
    t = pre ++ x :: post ->
    q x = true ->
    seen = true \/ exists y, In y pre /\ p y = true.
Proof.
  induction t as [| y t IH]; intros seen pre x post H Heq Hx.
  - destruct pre; discriminate Heq.
  - destruct pre as [| z pre]; cbn in Heq; injection Heq as <- ->.
    + cbn in H. rewrite Hx in H. apply andb_prop in H as [Hs _]. now left.
    + cbn in H. destruct (q y).
      * apply andb_prop in H as [Hs _]. now left.
      * destruct (IH _ _ _ _ H eq_refl Hx) as [Hor | [w [Hw Hp]]].
        -- apply orb_prop in Hor as [Hs | Hy]; [now left |].
           right. exists y. split; [now left | exact Hy].
        -- right. exists w. split; [now right | exact Hp].
Qed.

End ComesAfter.

Lemma mutation_handler_first_delete env args :
  sat (Client.deleteCmd env args)
      (fun t o => comesAfter isGoodbyeRegister
                             (fun e => match e with
                                       | ClientReady => true
                                       | e' => isRequest e'
                                       end) false t = true).
Proof.
  unfold Client.deleteCmd, Client.goodbyeExit, Client.goodbyeHandler.
  run; reflexivity.
Qed.

Lemma mutation_handler_first_register env args :
  sat (Client.registerCmd env args)
      (fun t o => comesAfter isGoodbyeRegister
                             (fun e => match e with
                                       | ClientReady => true
                                       | e' => isRequest e'
                                       end) false t = true).
Proof.
  unfold Client.registerCmd, Client.goodbyeExit, Client.goodbyeHandler.
  run; reflexivity.
Qed.

(** X12.  [delete] and [register] register their exit handler before they
    open the connection and before they make the request: whenever
    [client.ready()] is called, [goodbye] was called before, so an
    interrupt while the command waits runs the handler. *)
Theorem mutation_registers_handler_first env dargs rargs :
  (forall pre post,
      trace (Client.deleteCmd env dargs) = pre ++ ClientReady :: post ->
      In GoodbyeRegister pre)
  /\ (forall pre post,
         trace (Client.registerCmd env rargs) = pre ++ ClientReady :: post ->
         In GoodbyeRegister pre).
Proof.
  split; intros pre post Heq.
  - destruct (comesAfter_sound _ _ _ _ _ _ _
                (mutation_handler_first_delete env dargs) Heq eq_refl)
      as [Hf | [y [Hy Hp]]]; [discriminate Hf |].
    destruct y; try discriminate Hp. exact Hy.
  - destruct (comesAfter_sound _ _ _ _ _ _ _
                (mutation_handler_first_register env rargs) Heq eq_refl)
      as [Hf | [y [Hy Hp]]]; [discriminate Hf |].
    destruct y; try discriminate Hp. exact Hy.
Qed.

Lemma mutation_registers_handler_first_witness :
  In GoodbyeRegister
     (firstn 4 (trace (Client.deleteCmd (Sample.rpcEnv Pending)
                                        Sample.deleteArgs))).
Proof.
  refine (proj1 (mutation_registers_handler_first
                   (Sample.rpcEnv Pending) Sample.deleteArgs
                   Sample.registerArgs)
                (firstn 4 (trace (Client.deleteCmd (Sample.rpcEnv Pending)
                                                   Sample.deleteArgs)))
                (skipn 5 (trace (Client.deleteCmd (Sample.rpcEnv Pending)
                                                  Sample.deleteArgs)))
                _).
  reflexivity.
Defined.

(** X13.  The exit handler of [delete] and [register]: it prints
    [Cancelling...] exactly when the command had not finished, it closes
    the client exactly when the client is opened, and it destroys the DHT
    unless closing the client failed or never ends. *)
Theorem mutation_exit_handler env done :
  (In (ConsoleInfo "Cancelling...")
      (trace (Client.goodbyeHandler env done)) <-> done = false)
  /\ (In ClientClose (trace (Client.goodbyeHandler env done))
      <-> Client.opened env = true)
  /\ (In DhtDestroy (trace (Client.goodbyeHandler env done))
      <-> (Client.opened env = false
           \/ exists u, Client.close env = Resolves u)).
Proof.
  unfold Client.goodbyeHandler.
  destruct done, (Client.opened env), (Client.close env) as [[] | e |],
    (Client.dhtDestroy env) as [[] | e' |]; cbn.
  all: repeat split; intros H.
  all: repeat match goal with
         | H : _ \/ _ |- _ => destruct H as [H | H]
         | H : exists _, _ |- _ => destruct H as [? H]
         end.
  all: try discriminate; try contradiction; eauto.
Qed.

(* ===================================================================== *)
(** * More on [run] *)
(* ===================================================================== *)

Lemma runCmd_order env args flags :
  sat (Server.runCmd env args flags)
      (fun t o =>
         comesAfter isServiceReady isJoin false t = true
         /\ comesAfter isGoodbyeRegister isStart false t = true
         /\ (forall topic opts,
                In (SwarmJoin topic opts) t ->
                Server.serviceReady env = Resolves tt)).
Proof.
  unfold Server.runCmd, Server.setUpInstrumentation.
  run.
  all: split; [reflexivity | split; [reflexivity |]].
  all: intros topic opts Hin; cbn [In app] in Hin.
  all: repeat (destruct Hin as [Hin | Hin]; try discriminate Hin).
  all: try contradiction.
  all: one_unit; reflexivity.
Qed.

(** X14.  In every execution of [run], with its handlers interleaved, a
    topic is joined only after [service.ready()] was called, and only
    once that call has resolved: a service that fails to start, or never
    finishes starting, is announced on no topic. *)
Theorem runCmd_joins_after_ready env args flags evs sched pre topic opts post :
  Server.runExecution env args flags evs sched
  = pre ++ SwarmJoin topic opts :: post ->
  In ServiceReady pre /\ Server.serviceReady env = Resolves tt.
Proof.
  intros Hexec.
  destruct (runCmd_order env args flags) as [Hjoin [_ Hready]].
  assert (Hquiet : Forall (fun e => isJoin e = false)
                          (Server.runHandlers env evs))
    by (apply runHandlers_quiet; reflexivity).
  split.
  - pose proof (comesAfter_weave isServiceReady isJoin sched _ _ false
                                 Hjoin Hquiet) as H.
    destruct (comesAfter_sound _ _ _ _ _ _ _ H Hexec eq_refl)
      as [Hf | [y [Hy Hp]]]; [discriminate Hf |].
    destruct y; try discriminate Hp. exact Hy.
  - assert (Hin : In (SwarmJoin topic opts)
                     (Server.runExecution env args flags evs sched))
      by (rewrite Hexec; apply in_elt).
    apply (in_weave_main isJoin) in Hin; [| exact Hquiet | reflexivity].
    exact (Hready topic opts Hin).
Qed.

Lemma runCmd_joins_after_ready_witness :
  In ServiceReady
     (firstn 18 (Server.runExecution Sample.runEnv Sample.runArgs
                                     Sample.noFlags MoreSamples.runEvents
                                     (repeat true 14 ++ repeat false 4))).
Proof.
  refine (proj1 (runCmd_joins_after_ready
                   Sample.runEnv Sample.runArgs Sample.noFlags
                   MoreSamples.runEvents (repeat true 14 ++ repeat false 4)
                   (firstn 18 (Server.runExecution
                                 Sample.runEnv Sample.runArgs Sample.noFlags
                                 MoreSamples.runEvents
                                 (repeat true 14 ++ repeat false 4)))
                   (list_byte_of_string "bdk1") None
                   (skipn 19 (Server.runExecution
                                Sample.runEnv Sample.runArgs Sample.noFlags
                                MoreSamples.runEvents
                                (repeat true 14 ++ repeat false 4)))
                   _)).
  reflexivity.
Defined.

(** X15.  In every execution of [run], the shutdown handler is registered
    with [goodbye] before the instrumentation or the service is started:
    an interrupt during a start-up that waits, or after one that failed,
    finds the handler in place. *)
Theorem runCmd_registers_shutdown_first env args flags evs sched pre x post :
  Server.runExecution env args flags evs sched = pre ++ x :: post ->
  isStart x = true ->
  In GoodbyeRegister pre.
Proof.
  intros Hexec Hx.
  destruct (runCmd_order env args flags) as [_ [Hfirst _]].
  assert (Hquiet : Forall (fun e => isStart e = false)
                          (Server.runHandlers env evs))
    by (apply runHandlers_quiet; reflexivity).
  pose proof (comesAfter_weave isGoodbyeRegister isStart sched _ _ false
                               Hfirst Hquiet) as H.
  destruct (comesAfter_sound _ _ _ _ _ _ _ H Hexec Hx)
    as [Hf | [y [Hy Hp]]]; [discriminate Hf |].
  destruct y; try discriminate Hp. exact Hy.
Qed.

Lemma runCmd_registers_shutdown_first_witness :
  In GoodbyeRegister
     (firstn 13 (Server.runExecution
                   (MoreSamples.serviceEnv Pending (Resolves tt))
                   Sample.runArgs Sample.noFlags [] [])).
Proof.
  refine (runCmd_registers_shutdown_first
            (MoreSamples.serviceEnv Pending (Resolves tt))
            Sample.runArgs Sample.noFlags [] []
            (firstn 13 (Server.runExecution
                          (MoreSamples.serviceEnv Pending (Resolves tt))
                          Sample.runArgs Sample.noFlags [] []))
            ServiceReady [] _ eq_refl).
  reflexivity.
Defined.

(** The instrumentation in [run]. *)
Lemma runCmd_instrumentation env args flags :
  sat (Server.runCmd env args flags)
      (fun t o =>
         (flagTruthy (Server.scraperPublicKey flags) = false ->
          filter isInstrumentation t = [])
         /\ (flagTruthy (Server.scraperPublicKey flags) = true ->
             o = Done tt ->
             exists opts,
               filter isInstrumentation t
               = [NewInstrumentation opts; InstrumentationRegisterLogger;
                  RouterRegisterMetrics; InstrumentationReady]
               /\ Server.decode env (Server.scraperPublicKey flags)
                  = inr (Effects.scraperPublicKey opts)
               /\ Server.decode env (Server.scraperSecret flags)
                  = inr (Effects.scraperSecret opts)
               /\ prometheusServiceName opts = "autodiscovery"
               /\ version opts = Server.ownVersion env
               /\ Server.instrumentationReady env = Resolves tt)).
Proof.
  unfold Server.runCmd, Server.setUpInstrumentation.
  run.
  all: split; [intros Hoff; first [discriminate Hoff | reflexivity] |].
  all: intros Hon Ho; try discriminate Hon; try discriminate Ho.
  all: one_unit; eexists; repeat split.
Qed.

(** X16.  The instrumentation of [run] is optional as a whole.  Without
    [--scraper-public-key] nothing is done with it: none is created, no
    metrics are registered on the router, none is waited for.  With it, a
    start-up that completes creates one, for the scraper's decoded key and
    secret, under the service name [autodiscovery] and the version of the
    package, registers the logger and the router's metrics, and waits for
    it to be ready, each once and in this order. *)
Theorem runCmd_instrumentation_optional env args flags :
  (flagTruthy (Server.scraperPublicKey flags) = false ->
   filter isInstrumentation (trace (Server.runCmd env args flags)) = [])
  /\ (flagTruthy (Server.scraperPublicKey flags) = true ->
      outcome (Server.runCmd env args flags) = Done tt ->
      exists opts,
        filter isInstrumentation (trace (Server.runCmd env args flags))
        = [NewInstrumentation opts; InstrumentationRegisterLogger;
           RouterRegisterMetrics; InstrumentationReady]
        /\ Server.decode env (Server.scraperPublicKey flags)
           = inr (Effects.scraperPublicKey opts)
        /\ Server.decode env (Server.scraperSecret flags)
           = inr (Effects.scraperSecret opts)
        /\ prometheusServiceName opts = "autodiscovery"
        /\ version opts = Server.ownVersion env
        /\ Server.instrumentationReady env = Resolves tt).
Proof. exact (runCmd_instrumentation env args flags). Qed.

Lemma runCmd_instrumentation_optional_witness :
  filter isInstrumentation
         (trace (Server.runCmd Sample.runEnv Sample.runArgs Sample.noFlags))
  = []
  /\ exists opts,
      filter isInstrumentation
             (trace (Server.runCmd Sample.runEnv Sample.runArgs
                                   (Sample.scraperFlags None)))
      = [NewInstrumentation opts; InstrumentationRegisterLogger;
         RouterRegisterMetrics; InstrumentationReady]
      /\ Server.decode Sample.runEnv (Some "scr1")
         = inr (Effects.scraperPublicKey opts)
      /\ Server.decode Sample.runEnv (Some "sec1")
         = inr (Effects.scraperSecret opts)
      /\ prometheusServiceName opts = "autodiscovery"
      /\ version opts = "1.0.0"
      /\ Server.instrumentationReady Sample.runEnv = Resolves tt.
Proof.
  split.
  - exact (proj1 (runCmd_instrumentation_optional
                    Sample.runEnv Sample.runArgs Sample.noFlags) eq_refl).
  - exact (proj2 (runCmd_instrumentation_optional
                    Sample.runEnv Sample.runArgs (Sample.scraperFlags None))
                 eq_refl eq_refl).
Defined.

(** The key [run] accepts requests from, and the store it opens. *)
Lemma runCmd_service_and_store env args flags :
  sat (Server.runCmd env args flags)
      (fun t o =>
         (forall ns k,
             In (NewAutodiscovery ns k) t ->
             ns = "autodiscovery"
             /\ Server.decode env (Some (Server.rpcAllowedPublicKey args))
                = inr k)
         /\ (forall s,
                In (NewCorestore s) t ->
                s = Server.pathResolve env
                      (orString (Server.storage flags) "autodiscovery")
                /\ In (LoggerInfo ("Using storage: " ++ s)) t)).
Proof.
  unfold Server.runCmd, Server.setUpInstrumentation.
  run.
  all: split; [intros ns k Hin | intros s Hin]; cbn [In app] in Hin.
  all: repeat (destruct Hin as [Hin | Hin]; try discriminate Hin).
  all: try contradiction.
  all: try (injection Hin as <- <-; split; reflexivity).
  all: injection Hin as <-; split; [reflexivity |].
  all: cbn [In app]; tauto.
Qed.

(** X17.  [run] decodes the key allowed to send requests first.  When it
    does not decode, the command throws the error of the decoder having
    created its logger only: no store is opened, no swarm is created.
    When a service is created, it is created in the namespace
    [autodiscovery] of the store, for the key decoded from the command
    line. *)
Theorem runCmd_allowed_key env args flags :
  (forall e,
      Server.decode env (Some (Server.rpcAllowedPublicKey args)) = inl e ->
      Server.runCmd env args flags
      = ([NewLogger "autobase-discovery"], Thrown e))
  /\ (forall ns k,
         In (NewAutodiscovery ns k) (trace (Server.runCmd env args flags)) ->
         ns = "autodiscovery"
         /\ Server.decode env (Some (Server.rpcAllowedPublicKey args))
            = inr k).
Proof.
  split.
  - intros e H. unfold Server.runCmd. rewrite H. reflexivity.
  - exact (proj1 (runCmd_service_and_store env args flags)).
Qed.

Lemma runCmd_allowed_key_witness :
  Server.runCmd Sample.runEnv MoreSamples.badRunArgs Sample.noFlags
  = ([NewLogger "autobase-discovery"],
     Thrown (mkError "Invalid Hypercore key")).
Proof.
  exact (proj1 (runCmd_allowed_key Sample.runEnv MoreSamples.badRunArgs
                                   Sample.noFlags)
               (mkError "Invalid Hypercore key") eq_refl).
Defined.

(** X18.  The store [run] opens is at the path [path.resolve] makes of
    [--storage], or of [autodiscovery] when the flag is absent or empty,
    and this is the path the command has logged as [Using storage]. *)
Theorem runCmd_storage env args flags s :
  In (NewCorestore s) (trace (Server.runCmd env args flags)) ->
  (exists dir,
      takenFrom (Server.storage flags) "autodiscovery" dir
      /\ s = Server.pathResolve env dir)
  /\ In (LoggerInfo ("Using storage: " ++ s))
        (trace (Server.runCmd env args flags)).
Proof.
  intros Hin.
  destruct (proj2 (runCmd_service_and_store env args flags) s Hin)
    as [Hs Hlog].
  split; [| exact Hlog].
  eexists; split; [apply orString_takenFrom | exact Hs].
Qed.

Lemma runCmd_storage_witness :
  (exists dir,
      takenFrom (Some "data") "autodiscovery" dir /\ "/srv/data" = ("/srv/" ++ dir)%string)
  /\ In (LoggerInfo "Using storage: /srv/data")
        (trace (Server.runCmd Sample.runEnv Sample.runArgs
                              MoreSamples.storageFlags)).
Proof.
  refine (runCmd_storage Sample.runEnv Sample.runArgs MoreSamples.storageFlags
                         "/srv/data" _).
  vm_compute. tauto.
Defined.

(** ** The [--bootstrap] flag *)

Lemma append_empty_r (s : string) : (s ++ "")%string = s.
Proof. induction s as [| a s IH]; cbn; [reflexivity | now rewrite IH]. Qed.

Lemma append_assoc3 (a b c : string) :
  ((a ++ b) ++ c = a ++ b ++ c)%string.
Proof. induction a as [| x a IH]; cbn; [reflexivity | now rewrite IH]. Qed.

Lemma splitAux_lacks (c : ascii) (s : string) :
  forall acc, lacks c s = true -> splitAux c acc s = [(acc ++ s)%string].
Proof.
  induction s as [| a s IH]; intros acc H; cbn in *.
  - now rewrite append_empty_r.
  - apply andb_prop in H as [Ha Hs]. apply negb_true_iff in Ha.
    rewrite Ha, (IH _ Hs), append_assoc3. reflexivity.
Qed.

Lemma splitAux_app (c : ascii) (h rest : string) :
  forall acc,
    lacks c h = true ->
    splitAux c acc (h ++ String c rest)%string
    = (acc ++ h)%string :: splitAux c "" rest.
Proof.
  induction h as [| a h IH]; intros acc H; cbn in *.
  - now rewrite Ascii.eqb_refl, append_empty_r.
  - apply andb_prop in H as [Ha Hh]. apply negb_true_iff in Ha.
    rewrite Ha, (IH _ Hh), append_assoc3. reflexivity.
Qed.

Lemma split_lacks (c : ascii) (s : string) :
  lacks c s = true -> split c s = [s].
Proof. intros H. unfold split. now rewrite splitAux_lacks. Qed.

Lemma split_app (c : ascii) (h rest : string) :
  lacks c h = true ->
  split c (h ++ String c rest)%string = h :: split c rest.
Proof. intros H. unfold split. now rewrite splitAux_app. Qed.

Lemma splitAux_cons (c : ascii) (s : string) :
  forall acc, exists piece pieces, splitAux c acc s = piece :: pieces.
Proof.
  induction s as [| a s IH]; intros acc; cbn.
  - now exists acc, [].
  - destruct (Ascii.eqb a c); [now eexists _, _ | apply IH].
Qed.

Lemma splitAux_concat (c : ascii) (s : string) :
  forall acc,
    String.concat (String c "") (splitAux c acc s) = (acc ++ s)%string.
Proof.
  induction s as [| a s IH]; intros acc; cbn [splitAux].
  - cbn. now rewrite append_empty_r.
  - destruct (Ascii.eqb a c) eqn:Ha.
    + apply Ascii.eqb_eq in Ha. subst a.
      destruct (splitAux_cons c s "") as [piece [pieces Heq]].
      specialize (IH ""). rewrite Heq in *.
      change (String.concat (String c "") (acc :: piece :: pieces))
        with (acc ++ String c ""
                  ++ String.concat (String c "") (piece :: pieces))%string.
      rewrite IH. reflexivity.
    + rewrite IH, append_assoc3. reflexivity.
Qed.

Lemma splitAux_pieces (c : ascii) (s : string) :
  forall acc,
    lacks c acc = true ->
    Forall (fun piece => lacks c piece = true) (splitAux c acc s).
Proof.
  assert (Happ : forall a b, lacks c a = true -> lacks c b = true ->
                             lacks c (a ++ b)%string = true).
  { induction a as [| x a IH]; intros b Ha Hb; cbn in *; [exact Hb |].
    apply andb_prop in Ha as [Hx Ha]. rewrite Hx. cbn. now apply IH. }
  induction s as [| a s IH]; intros acc Hacc; cbn.
  - now constructor.
  - destruct (Ascii.eqb a c) eqn:Ha.
    + constructor; [exact Hacc | now apply IH].
    + apply IH. apply Happ; [exact Hacc |]. cbn. now rewrite Ha.
Qed.

Lemma splitAux_length (c : ascii) (s : string) :
  forall acc, length (splitAux c acc s) = S (occurrences c s).
Proof.
  induction s as [| a s IH]; intros acc; cbn; [reflexivity |].
  destruct (Ascii.eqb a c); cbn; now rewrite IH.
Qed.

(** X19.  [split], as [run] uses it on [--bootstrap]: joining the pieces
    with the separator gives the string back, no piece contains the
    separator, and there is one piece more than there are separators (so
    at least one piece: the host is never [undefined]). *)
Theorem split_pieces (c : ascii) (s : string) :
  String.concat (String c "") (split c s) = s
  /\ Forall (fun piece => lacks c piece = true) (split c s)
  /\ length (split c s) = S (occurrences c s).
Proof.
  unfold split. split; [| split].
  - now rewrite splitAux_concat.
  - now apply splitAux_pieces.
  - apply splitAux_length.
Qed.

(** X20.  The bootstrap node built from [--bootstrap]: from [host:port]
    the host is [host] and the port is [parseInt] of [port]; whatever
    follows a second colon is dropped; and with no colon at all the whole
    flag is the host and the port is [parseInt] of [undefined]. *)
Theorem bootstrapNode_host_port env (h p : string) :
  lacks ":" h = true ->
  lacks ":" p = true ->
  Server.bootstrapNode env (h ++ ":" ++ p)%string
  = {| port := Server.parseInt env p; host := h |}
  /\ (forall tail,
         Server.bootstrapNode env (h ++ ":" ++ p ++ ":" ++ tail)%string
         = {| port := Server.parseInt env p; host := h |})
  /\ Server.bootstrapNode env h
     = {| port := Server.parseInt env "undefined"; host := h |}.
Proof.
  intros Hh Hp. unfold Server.bootstrapNode.
  split; [| split].
  - change (h ++ ":" ++ p)%string with (h ++ String ":" p)%string.
    now rewrite (split_app _ _ _ Hh), (split_lacks _ _ Hp).
  - intros tail.
    change (h ++ ":" ++ p ++ ":" ++ tail)%string
      with (h ++ String ":" (p ++ String ":" tail))%string.
    now rewrite (split_app _ _ _ Hh), (split_app _ _ _ Hp).
  - now rewrite (split_lacks _ _ Hh).
Qed.

Lemma bootstrapNode_host_port_witness :
  Server.bootstrapNode Sample.runEnv "127.0.0.1:10000"
  = {| port := Num 10000; host := "127.0.0.1" |}.
Proof.
  exact (proj1 (bootstrapNode_host_port Sample.runEnv "127.0.0.1" "10000"
                                        eq_refl eq_refl)).
Defined.




(** ** Handlers of [run] *)

(** X22.  The shutdown handler of [run] logs that it shuts down, closes
    the instrumentation if there is one, destroys the swarm, then closes
    the service, then the router, stopping at the first of these that
    fails or never ends: what it does is always a beginning of this
    sequence, the whole of it when it returns, and the service is closed
    only if destroying the swarm succeeded. *)
Theorem runCmd_shutdown env (instrumentation : bool) :
  let full :=
    [LoggerInfo "Shutting down autodiscovery service"]
    ++ (if instrumentation then [InstrumentationClose] else [])
    ++ [SwarmDestroy; ServiceClose; RouterClose] in
  (exists rest,
      full = trace (Server.goodbyeHandler env instrumentation) ++ rest)
  /\ (outcome (Server.goodbyeHandler env instrumentation) = Done tt ->
      trace (Server.goodbyeHandler env instrumentation) = full)
  /\ (In ServiceClose (trace (Server.goodbyeHandler env instrumentation)) ->
      Server.swarmDestroy env = Resolves tt)
  /\ (In RouterClose (trace (Server.goodbyeHandler env instrumentation)) ->
      Server.serviceClose env = Resolves tt).
Proof.
  unfold Server.goodbyeHandler.
  destruct instrumentation,
    (Server.instrumentationClose env) as [[] | e1 |],
    (Server.swarmDestroy env) as [[] | e2 |],
    (Server.serviceClose env) as [[] | e3 |],
    (Server.routerClose env) as [[] | e4 |]; cbn.
  all: repeat split; try discriminate; try (eexists; reflexivity).
  all: intros H; repeat (destruct H as [H | H]; try discriminate H);
    contradiction.
Qed.

Lemma runCmd_shutdown_witness :
  trace (Server.goodbyeHandler (MoreSamples.serviceEnv (Resolves tt)
                                                       (Resolves tt)) true)
  = [LoggerInfo "Shutting down autodiscovery service"; InstrumentationClose;
     SwarmDestroy; ServiceClose; RouterClose].
Proof.
  exact (proj1 (proj2 (runCmd_shutdown
                         (MoreSamples.serviceEnv (Resolves tt) (Resolves tt))
                         true)) eq_refl).
Defined.

(** X23.  The handlers [run] registers on the swarm and on the service
    only write log lines.  Whatever the swarm and the service report and
    whenever they do, the calls of an execution other than [logger.info]
    and the registration of a [close] handler are the calls of the command
    itself, in order. *)
Theorem runCmd_handlers_only_log env args flags evs sched :
  filter (fun e => negb (isHandlerEvent e))
         (Server.runExecution env args flags evs sched)
  = filter (fun e => negb (isHandlerEvent e))
           (trace (Server.runCmd env args flags)).
Proof.
  unfold Server.runExecution.
  apply filter_weave. apply runHandlers_quiet; reflexivity.
Qed.
